(** * Woodgate: the model-definition layer

    A shallow embedding of [woodgate/model/definition.py] and
    [woodgate/model/model_summary.py].

    The two modules are glue code: they resolve three paths from the
    process environment, read a JSON configuration, wire a fixed chain of
    Keras layers around a pretrained encoder and ask the encoder library to
    load a checkpoint.  The embedding keeps the statements of the source in
    the order in which they are written, inside a small state-and-exception
    monad over an explicit process state ([world]).  What the external
    collaborators compute (the operating system, TensorFlow/Keras, the
    encoder library, the tokenizer) is not the repository's code: it is an
    interface, [Framework], whose operations the embedding calls exactly
    where the source calls them. *)

From Stdlib Require Import Ascii String ZArith QArith Lia.
From stdpp Require Import base option list strings gmap.

Open Scope string_scope.
Open Scope Z_scope.
Open Scope list_scope.

(** ** Exceptions

    A Python exception is kept as its class name and its message. *)

Record exn := Exn { exn_type : string; exn_msg : string }.

Inductive result (A : Type) :=
| Ok (a : A)
| Raise (e : exn).
Arguments Ok {A} a.
Arguments Raise {A} e.

(** ** [os.path.join], POSIX flavour, with two arguments

    [posixpath.join(a, b)]: an absolute [b] replaces [a]; an empty [a] or
    one that already ends with the separator takes [b] directly; otherwise
    the separator is put between them. *)

Definition sep : ascii := "/"%char.

Definition startswith_sep (b : string) : bool :=
  match b with
  | String c _ => Ascii.eqb c sep
  | EmptyString => false
  end.

Fixpoint endswith_sep (p : string) : bool :=
  match p with
  | EmptyString => false
  | String c EmptyString => Ascii.eqb c sep
  | String _ rest => endswith_sep rest
  end.

Definition os_path_join (a b : string) : string :=
  if startswith_sep b then b
  else if String.eqb a "" || endswith_sep a then a +:+ b
  else a +:+ "/" +:+ b.

(** ** [os.getenv(key, default)] over [os.environ] *)

Definition os_getenv (environ : gmap string string) (key default : string) : string :=
  match environ !! key with
  | Some v => v
  | None => default
  end.

(** ** Encoder hyperparameters ([BertModelLayer.Params])

    The fields that the spec names; [adapter_size = None] is the library's
    spelling of "adapters disabled". *)

Record bert_params := BertParams {
  num_layers : Z;
  num_heads : Z;
  hidden_size : Z;
  intermediate_size : Z;
  vocab_size : Z;
  max_position_embeddings : Z;
  adapter_size : option Z
}.

(** [bert_params.adapter_size = v], an attribute assignment. *)
Definition set_adapter_size (v : option Z) (p : bert_params) : bert_params :=
  {| num_layers := num_layers p;
     num_heads := num_heads p;
     hidden_size := hidden_size p;
     intermediate_size := intermediate_size p;
     vocab_size := vocab_size p;
     max_position_embeddings := max_position_embeddings p;
     adapter_size := v |}.

(** ** Keras layers, symbolic tensors and indexing *)

(** One item of a subscript such as [seq[:, 0, :]]. *)
Inductive index_item :=
| SliceAll
| At (i : nat).

Inductive layer_config :=
| InputLayer (shape : list Z) (dtype : string) (name : string)
| BertModelLayer (params : bert_params) (name : string)
| Lambda (subscript : list index_item)
| Dropout (rate : Q)
| Dense (units : Z) (activation : string).

(** A static shape; [None] is an unknown dimension (the batch axis). *)
Abbreviation shape := (list (option Z)).

(** Object identity: the address of an object in the heap. *)
Abbreviation loc := nat.

(** A symbolic (functional-API) tensor: its static shape and the chain of
    layer objects that leads to it from the input placeholder. *)
Record ktensor := KTensor {
  kt_shape : shape;
  kt_history : list loc
}.

(** Static shape of [x[items]]. *)
Fixpoint subscript_shape (items : list index_item) (s : shape) : option shape :=
  match items, s with
  | [], _ => Some s
  | _ :: _, [] => None
  | SliceAll :: items', d :: s' => cons d <$> subscript_shape items' s'
  | At _ :: items', _ :: s' => subscript_shape items' s'
  end.

(** Static output shape of a layer called on an input of shape [s]. *)
Definition compute_output_shape (cfg : layer_config) (s : shape) : option shape :=
  match cfg with
  | InputLayer _ _ _ => Some s
  | BertModelLayer p _ =>
      match s with
      | [batch; seq_len] => Some [batch; seq_len; Some (hidden_size p)]
      | _ => None
      end
  | Lambda items => subscript_shape items s
  | Dropout _ => Some s
  | Dense units _ =>
      match reverse s with
      | _ :: front => Some (reverse front ++ [Some units])
      | [] => None
      end
  end.

(** Values, for the meaning of a subscript: an n-dimensional array is a
    scalar or a sequence of arrays. *)
#[local] Unset Elimination Schemes.
Inductive ndarray (A : Type) :=
| Scalar (x : A)
| Arr (items : list (ndarray A)).
#[local] Set Elimination Schemes.
Arguments Scalar {A} x.
Arguments Arr {A} items.

(** [x[items]] where every index is in range; [None] where an index is
    out of range or the array has fewer axes than the subscript has items.
    Which error the tensor library raises there is not modelled. *)
Fixpoint getitem {A} (items : list index_item) (x : ndarray A) : option (ndarray A) :=
  match items with
  | [] => Some x
  | SliceAll :: items' =>
      match x with
      | Arr xs => Arr <$> mapM (getitem items') xs
      | Scalar _ => None
      end
  | At i :: items' =>
      match x with
      | Arr xs => xs !! i ≫= getitem items'
      | Scalar _ => None
      end
  end.

(** The body of [lambda seq: seq[:, 0, :]]. *)
Definition first_token : list index_item := [SliceAll; At 0%nat; SliceAll].

(** ** Calls to the external collaborators

    Every call that leaves the repository's code is recorded, in order and
    with its arguments, in the trace of the process state. *)

Inductive call :=
| os_makedirs_call (name : string) (exist_ok : bool)
| GFile_read_call (name : string)
| GFile_close_call (name : string)
| from_json_string_call (json : string)
| map_stock_config_to_params_call
| layer_new_call (cfg : layer_config)
| layer_apply_call (cfg : layer_config) (input_shape : shape)
| Model_new_call (inputs outputs : ktensor)
| Model_build_call (model : loc) (input_shape : shape)
| load_stock_weights_call (bert : loc) (ckpt_path : string)
| FullTokenizer_new_call (vocab_file : string)
| Model_summary_call (model : loc).

(** ** The external collaborators

    What the operating system, TensorFlow/Keras, bert-for-tf2 and its
    tokenizer compute.  None of it is code of this repository. *)

Class Framework := {
  (** file-system states, random-generator states, the parameter values of
      one layer, parsed configurations, loaded vocabularies *)
  fs : Type;
  rng : Type;
  weights : Type;
  stock_config : Type;
  vocab : Type;
  (** [os.path.isdir] and [os.makedirs(name, exist_ok=...)]; the latter
      answers the exception it raises, if any, and the new state *)
  os_path_isdir : fs → string → bool;
  os_makedirs : string → bool → fs → option exn * fs;
  (** [tf.io.gfile.GFile(name).read()] *)
  GFile_read : fs → string → exn + string;
  (** [StockBertConfig.from_json_string], [map_stock_config_to_params] *)
  from_json_string : string → exn + stock_config;
  map_stock_config_to_params : stock_config → exn + bert_params;
  (** argument and shape validation of Keras: the exception with which a
      constructor, a layer call, [keras.Model] or [Model.build] rejects its
      arguments, if it does, given the calls made before *)
  keras_rejects : list call → call → option exn;
  (** the initializers that create the parameters of a layer when it is
      built for an input shape *)
  initial_weights : layer_config → shape → rng → weights * rng;
  (** what [load_stock_weights] computes for the parameters of an encoder
      from a checkpoint on disk: the encoder's parameters after loading;
      and the lines that it prints on the way (the weights it finds no
      value for, its report at the end) *)
  checkpoint_weights : fs → string → bert_params → weights → exn + weights;
  loader_output : fs → string → bert_params → weights → list string;
  (** the vocabulary that [load_vocab] builds from the text of the
      vocabulary file, and tokenization followed by
      [convert_tokens_to_ids] *)
  vocab_of_text : string → exn + vocab;
  token_ids : vocab → string → list Z;
  (** the text that [Model.summary] prints for a model *)
  summary_text : list loc → list (layer_config * option weights) → exn + list string
}.

(** The documented contract of [os.makedirs]: after success the directory
    exists; with [exist_ok=True] an existing directory is success and
    nothing changes. *)
Class FileSystemLaws (F : Framework) : Prop := {
  makedirs_creates name exist_ok s s' :
    os_makedirs name exist_ok s = (None, s') → os_path_isdir s' name = true;
  makedirs_exist_ok name s :
    os_path_isdir s name = true → os_makedirs name true s = (None, s)
}.

Section Woodgate.
Context {F : Framework}.

(** ** Process state *)

Inductive obj :=
| LayerObj (cfg : layer_config) (w : option weights)
| ModelObj (inputs outputs : ktensor) (layers : list loc)
| TokenizerObj (vocab_file : string) (v : vocab).

Record world := World {
  w_environ : gmap string string;
  w_fs : fs;
  w_heap : list obj;
  w_rng : rng;
  w_stdout : list string;
  w_trace : list call
}.

Definition set_fs (s : fs) (w : world) : world :=
  World (w_environ w) s (w_heap w) (w_rng w) (w_stdout w) (w_trace w).
Definition set_heap (h : list obj) (w : world) : world :=
  World (w_environ w) (w_fs w) h (w_rng w) (w_stdout w) (w_trace w).
Definition set_rng (r : rng) (w : world) : world :=
  World (w_environ w) (w_fs w) (w_heap w) r (w_stdout w) (w_trace w).
Definition set_stdout (o : list string) (w : world) : world :=
  World (w_environ w) (w_fs w) (w_heap w) (w_rng w) o (w_trace w).
Definition set_trace (t : list call) (w : world) : world :=
  World (w_environ w) (w_fs w) (w_heap w) (w_rng w) (w_stdout w) t.

(** ** The monad: state that survives an exception *)

Definition M (A : Type) : Type := world → result A * world.

Definition ret {A} (a : A) : M A := λ w, (Ok a, w).

Definition raise {A} (e : exn) : M A := λ w, (Raise e, w).

Definition bind {A B} (m : M A) (k : A → M B) : M B :=
  λ w, match m w with
       | (Ok a, w') => k a w'
       | (Raise e, w') => (Raise e, w')
       end.

(** [try: m finally: h] *)
Definition finally {A} (m : M A) (h : M unit) : M A :=
  λ w, match m w with
       | (r, w') =>
           match h w' with
           | (Ok _, w'') => (r, w'')
           | (Raise e, w'') => (Raise e, w'')
           end
       end.

Definition get : M world := λ w, (Ok w, w).
Definition modify (f : world → world) : M unit := λ w, (Ok tt, f w).

End Woodgate.

Notation "x <- m ;; k" := (bind m (λ x, k))
  (at level 100, m at next level, right associativity,
   format "x  <-  m  ;;  '//' k").
Notation "m ;; k" := (bind m (λ _, k))
  (at level 100, right associativity, format "m  ;;  '//' k").

Section Program.
Context {F : Framework}.

(** ** Primitive steps *)

(** Record a call to an external collaborator. *)
Definition log (c : call) : M unit :=
  modify (λ w, set_trace (w_trace w ++ [c]) w).

(** Create an object; its identity is a fresh address. *)
Definition alloc (o : obj) : M loc :=
  λ w, (Ok (length (w_heap w)), set_heap (w_heap w ++ [o]) w).

Definition deref (l : loc) : M obj :=
  λ w, match w_heap w !! l with
       | Some o => (Ok o, w)
       | None => (Raise (Exn "SystemError" "dangling reference"), w)
       end.

(** Mutate an object in place. *)
Definition store (l : loc) (o : obj) : M unit :=
  modify (λ w, set_heap (<[l:=o]> (w_heap w)) w).

Definition lift {A} (r : exn + A) : M A :=
  match r with
  | inl e => raise e
  | inr a => ret a
  end.

(** A call that Keras validates: recorded, then rejected or accepted. *)
Definition keras (c : call) : M unit :=
  w <- get ;;
  log c ;;
  match keras_rejects (w_trace w) c with
  | Some e => raise e
  | None => ret tt
  end.

(** ** The operating system *)

Definition getenv (key default : string) : M string :=
  w <- get ;;
  ret (os_getenv (w_environ w) key default).

Definition makedirs (name : string) (exist_ok : bool) : M unit :=
  log (os_makedirs_call name exist_ok) ;;
  w <- get ;;
  match os_makedirs name exist_ok (w_fs w) with
  | (None, s) => modify (set_fs s)
  | (Some e, s) => modify (set_fs s) ;; raise e
  end.

(** ** Keras *)

(** A layer constructor, [keras.layers.X(...)]: a new, unbuilt layer. *)
Definition layer_new (cfg : layer_config) : M loc :=
  keras (layer_new_call cfg) ;;
  alloc (LayerObj cfg None).

(** Building a layer for an input shape creates its parameters from the
    initializers, which draw from the random generator. *)
Definition layer_build (l : loc) (cfg : layer_config) (input_shape : shape) : M unit :=
  w <- get ;;
  modify (set_rng (initial_weights cfg input_shape (w_rng w)).2) ;;
  store l (LayerObj cfg (Some (initial_weights cfg input_shape (w_rng w)).1)).

(** [layer(x)] on a symbolic tensor: the layer is built for the shape of
    [x] on its first call; the result continues the history of [x]. *)
Definition layer_call (l : loc) (x : ktensor) : M ktensor :=
  o <- deref l ;;
  match o with
  | LayerObj cfg ws =>
      keras (layer_apply_call cfg (kt_shape x)) ;;
      match compute_output_shape cfg (kt_shape x) with
      | None => raise (Exn "ValueError" "incompatible input shape")
      | Some s =>
          match ws with
          | Some _ => ret tt
          | None => layer_build l cfg (kt_shape x)
          end ;;
          ret {| kt_shape := s; kt_history := kt_history x ++ [l] |}
      end
  | _ => raise (Exn "TypeError" "object is not callable")
  end.

(** [keras.layers.Input(shape=..., dtype=..., name=...)]: an input layer,
    built when it is created, and the placeholder it produces, with the
    batch axis in front. *)
Definition Input (shape : list Z) (dtype name : string) : M ktensor :=
  l <- layer_new (InputLayer shape dtype name) ;;
  layer_build l (InputLayer shape dtype name) (None :: (Some <$> shape)) ;;
  ret {| kt_shape := None :: (Some <$> shape); kt_history := [l] |}.

(** [keras.Model(inputs=..., outputs=...)]: the layers are those on the
    path from [inputs] to [outputs]. *)
Definition Model (inputs outputs : ktensor) : M loc :=
  keras (Model_new_call inputs outputs) ;;
  if bool_decide (kt_history inputs `prefix_of` kt_history outputs)
  then alloc (ModelObj inputs outputs (kt_history outputs))
  else raise (Exn "ValueError" "Graph disconnected").

(** [model.build(input_shape=...)]: for a functional model, whose layers
    are already built, only the validation remains. *)
Definition Model_build (model : loc) (input_shape : shape) : M unit :=
  keras (Model_build_call model input_shape).

(** [model.summary()]: prints the description of the model's layers. *)
Definition Model_summary (model : loc) : M unit :=
  log (Model_summary_call model) ;;
  o <- deref model ;;
  match o with
  | ModelObj _ _ layers =>
      w <- get ;;
      let described :=
        omap (λ l, match w_heap w !! l with
                   | Some (LayerObj cfg ws) => Some (cfg, ws)
                   | _ => None
                   end) layers in
      lines <- lift (summary_text layers described) ;;
      modify (λ w, set_stdout (w_stdout w ++ lines) w)
  | _ => raise (Exn "AttributeError" "object has no attribute 'summary'")
  end.

(** ** bert-for-tf2 *)

(** [with tf.io.gfile.GFile(name) as reader: body]: the file is closed
    when the block is left, also by an exception. *)
Definition with_GFile {A} (name : string) (body : string → M A) : M A :=
  finally (body name) (log (GFile_close_call name)).

(** [reader.read()] *)
Definition reader_read (reader : string) : M string :=
  log (GFile_read_call reader) ;;
  w <- get ;;
  lift (GFile_read (w_fs w) reader).

Definition StockBertConfig_from_json_string (json : string) : M stock_config :=
  log (from_json_string_call json) ;;
  lift (from_json_string json).

Definition map_stock_config_to_params_ (bc : stock_config) : M bert_params :=
  log map_stock_config_to_params_call ;;
  lift (map_stock_config_to_params bc).

(** [BertModelLayer.from_params(params, name=...)] *)
Definition BertModelLayer_from_params (params : bert_params) (name : string) : M loc :=
  layer_new (BertModelLayer params name).

(** [load_stock_weights(bert, ckpt_path)]: asserts that it is given a
    built encoder layer, prints what it finds and what it has done on the
    standard output, and overwrites that layer's parameters with what the
    checkpoint provides. *)
Definition load_stock_weights (bert : loc) (ckpt_path : string) : M unit :=
  log (load_stock_weights_call bert ckpt_path) ;;
  o <- deref bert ;;
  match o with
  | LayerObj (BertModelLayer p name) (Some ws) =>
      w <- get ;;
      modify (set_stdout (w_stdout w ++ loader_output (w_fs w) ckpt_path p ws)) ;;
      ws' <- lift (checkpoint_weights (w_fs w) ckpt_path p ws) ;;
      store bert (LayerObj (BertModelLayer p name) (Some ws'))
  | LayerObj (BertModelLayer _ _) None =>
      raise (Exn "AssertionError" "BertModelLayer weights have not been instantiated yet")
  | _ =>
      raise (Exn "AssertionError" "Expecting a BertModelLayer instance as first argument")
  end.

(** [FullTokenizer(vocab_file=...)]: reads the text of the vocabulary
    file and builds the vocabulary from it. *)
Definition FullTokenizer (vocab_file : string) : M loc :=
  log (FullTokenizer_new_call vocab_file) ;;
  w <- get ;;
  text <- lift (GFile_read (w_fs w) vocab_file) ;;
  v <- lift (vocab_of_text text) ;;
  alloc (TokenizerObj vocab_file v).

(** [tokenizer.convert_tokens_to_ids(tokenizer.tokenize(text))] *)
Definition tokenizer_ids (h : list obj) (tokenizer : loc) (text : string) : option (list Z) :=
  match h !! tokenizer with
  | Some (TokenizerObj _ v) => Some (token_ids v text)
  | _ => None
  end.

(** ** [woodgate/model/definition.py] *)

(** The class attributes of [Definition]. *)
Record Definition_cls := {
  bert_dir : string;
  bert_config : string;
  bert_model : string
}.

(** The body of [class Definition], run once when the module is loaded.
    [woodgate_base_dir] is [FileSystemConfiguration.woodgate_base_dir],
    defined in another module. *)
Definition Definition_body (woodgate_base_dir : string) : M Definition_cls :=
  bert_dir <- getenv "BERT_DIR" (os_path_join woodgate_base_dir "bert") ;;
  makedirs bert_dir true ;;
  bert_config <- getenv "BERT_CONFIG" (os_path_join bert_dir "bert_config.json") ;;
  bert_model <- getenv "BERT_MODEL" (os_path_join bert_dir "bert_model.ckpt") ;;
  ret {| bert_dir := bert_dir; bert_config := bert_config; bert_model := bert_model |}.

Definition get_tokenizer (cls : Definition_cls) : M loc :=
  tokenizer <- FullTokenizer (os_path_join (bert_dir cls) "vocab.txt") ;;
  ret tokenizer.

Definition create_model (cls : Definition_cls)
    (max_sequence_length number_of_intents : Z) : M loc :=
  bert <- with_GFile (bert_config cls) (λ reader,
    json <- reader_read reader ;;
    bc <- StockBertConfig_from_json_string json ;;
    bert_params <- map_stock_config_to_params_ bc ;;
    let bert_params := set_adapter_size None bert_params in
    BertModelLayer_from_params bert_params "bert") ;;
  input_ids <- Input [max_sequence_length] "int32" "input_ids" ;;
  bert_output <- layer_call bert input_ids ;;
  lambda <- layer_new (Lambda first_token) ;;
  cls_out <- layer_call lambda bert_output ;;
  dropout <- layer_new (Dropout 0.5) ;;
  cls_out <- layer_call dropout cls_out ;;
  dense <- layer_new (Dense 768 "tanh") ;;
  logits <- layer_call dense cls_out ;;
  dropout_1 <- layer_new (Dropout 0.5) ;;
  logits <- layer_call dropout_1 logits ;;
  dense_1 <- layer_new (Dense number_of_intents "softmax") ;;
  logits <- layer_call dense_1 logits ;;
  model <- Model input_ids logits ;;
  Model_build model [None; Some max_sequence_length] ;;
  load_stock_weights bert (bert_model cls) ;;
  ret model.

(** ** [woodgate/model/model_summary.py] *)

(** [ModelSummary.print] *)
Definition ModelSummary_print (bert_model : loc) : M unit :=
  Model_summary bert_model.

End Program.

(** ** Observations on runs

    Definitions in which the properties of the functions above are
    stated: the state after a step, the calls made by a run, the objects of
    a model. *)

Section Observations.
Context {F : Framework}.

(** The state after a call has been recorded, after a layer has been
    built, after the configuration file has been closed. *)
Definition logged (c : call) (w : world) : world :=
  set_trace (w_trace w ++ [c]) w.

Definition built (l : loc) (cfg : layer_config) (s : shape) (w : world) : world :=
  set_heap (<[l := LayerObj cfg (Some (initial_weights cfg s (w_rng w)).1)]> (w_heap w))
    (set_rng (initial_weights cfg s (w_rng w)).2 w).

Definition closed (name : string) (w : world) : world :=
  logged (GFile_close_call name) w.

(** The calls made between two states of one run. *)
Definition calls_since (w w' : world) : list call :=
  drop (length (w_trace w)) (w_trace w').

(** Reading, parsing and mapping the configuration, as one function of
    the file system. *)
Definition read_config (s : fs) (name : string) : exn + bert_params :=
  match GFile_read s name with
  | inl e => inl e
  | inr json =>
      match from_json_string json with
      | inl e => inl e
      | inr bc => map_stock_config_to_params bc
      end
  end.

(** Calls that concern the configuration file only. *)
Definition config_file_call (c : call) : bool :=
  match c with
  | GFile_read_call _ | GFile_close_call _
  | from_json_string_call _ | map_stock_config_to_params_call => true
  | _ => false
  end.

(** The calls of the [with] block when none of them fails. *)
Definition config_calls (cls : Definition_cls) (json : string) (p : bert_params) : list call :=
  [ GFile_read_call (bert_config cls);
    from_json_string_call json;
    map_stock_config_to_params_call;
    layer_new_call (BertModelLayer p "bert");
    GFile_close_call (bert_config cls) ].

(** The placeholder and the output of the graph that [create_model]
    wires, in a heap that had [n] objects before. *)
Definition input_ids_of (L : Z) (n : nat) : ktensor :=
  {| kt_shape := [None; Some L]; kt_history := [(n + 1)%nat] |}.

Definition logits_of (N : Z) (n : nat) : ktensor :=
  {| kt_shape := [None; Some N];
     kt_history := [n + 1; n; n + 2; n + 3; n + 4; n + 5; n + 6]%nat |}.

(** The calls after the [with] block when none of them fails. *)
Definition wiring (cls : Definition_cls) (L N : Z) (p : bert_params) (n : nat) : list call :=
  [ layer_new_call (InputLayer [L] "int32" "input_ids");
    layer_apply_call (BertModelLayer p "bert") [None; Some L];
    layer_new_call (Lambda first_token);
    layer_apply_call (Lambda first_token) [None; Some L; Some (hidden_size p)];
    layer_new_call (Dropout 0.5);
    layer_apply_call (Dropout 0.5) [None; Some (hidden_size p)];
    layer_new_call (Dense 768 "tanh");
    layer_apply_call (Dense 768 "tanh") [None; Some (hidden_size p)];
    layer_new_call (Dropout 0.5);
    layer_apply_call (Dropout 0.5) [None; Some 768];
    layer_new_call (Dense N "softmax");
    layer_apply_call (Dense N "softmax") [None; Some 768];
    Model_new_call (input_ids_of L n) (logits_of N n);
    Model_build_call (n + 7)%nat [None; Some L];
    load_stock_weights_call n (bert_model cls) ].

(** The objects of the graph, in the order of their creation. *)
Definition graph (L N : Z) (p : bert_params) (n : nat)
    (enc w_in w_pool w_drop w_fc w_drop1 w_out : weights) : list obj :=
  [ LayerObj (BertModelLayer p "bert") (Some enc);
    LayerObj (InputLayer [L] "int32" "input_ids") (Some w_in);
    LayerObj (Lambda first_token) (Some w_pool);
    LayerObj (Dropout 0.5) (Some w_drop);
    LayerObj (Dense 768 "tanh") (Some w_fc);
    LayerObj (Dropout 0.5) (Some w_drop1);
    LayerObj (Dense N "softmax") (Some w_out);
    ModelObj (input_ids_of L n) (logits_of N n) (kt_history (logits_of N n)) ].

(** A heap that holds the objects of such a graph from address [n] on. *)
Definition holds_graph (h : list obj) (L N : Z) (p : bert_params) (n : nat)
    (enc w_in w_pool w_drop w_fc w_drop1 w_out : weights) : Prop :=
  ∀ k o, graph L N p n enc w_in w_pool w_drop w_fc w_drop1 w_out !! k = Some o →
         h !! (n + k)%nat = Some o.

(** The directory that the class body resolves in a given environment. *)
Definition resolved_bert_dir (base : string) (w : world) : string :=
  os_getenv (w_environ w) "BERT_DIR" (os_path_join base "bert").

(** Parameters as the initializers leave them. *)
Definition freshly_initialized (cfg : layer_config) (s : shape) (ws : weights) : Prop :=
  ∃ r, ws = (initial_weights cfg s r).1.

(** The layers of the graph with the input shapes for which they are
    built, in the order in which [create_model] builds them, which is the
    order of the chain; and the parameters that the initializers create
    for them, one layer after the other, from a state of the generator. *)
Definition build_order (L N : Z) (p : bert_params) : list (layer_config * shape) :=
  [ (InputLayer [L] "int32" "input_ids", [None; Some L]);
    (BertModelLayer p "bert", [None; Some L]);
    (Lambda first_token, [None; Some L; Some (hidden_size p)]);
    (Dropout 0.5, [None; Some (hidden_size p)]);
    (Dense 768 "tanh", [None; Some (hidden_size p)]);
    (Dropout 0.5, [None; Some 768]);
    (Dense N "softmax", [None; Some 768]) ].

Fixpoint draws (builds : list (layer_config * shape)) (r : rng) : list weights :=
  match builds with
  | [] => []
  | (cfg, s) :: rest =>
      (initial_weights cfg s r).1 :: draws rest (initial_weights cfg s r).2
  end.

(** A checkpoint that has a value for every parameter of the encoder with
    hyperparameters [p], built for inputs of shape [input_shape]: what
    loading leaves in that encoder does not depend on the values its
    initializers had drawn. *)
Definition checkpoint_covers_encoder (s : fs) (ckpt : string)
    (p : bert_params) (input_shape : shape) : Prop :=
  ∀ r r',
    checkpoint_weights s ckpt p (initial_weights (BertModelLayer p "bert") input_shape r).1 =
    checkpoint_weights s ckpt p (initial_weights (BertModelLayer p "bert") input_shape r').1.

(** Reading a model in a heap. *)
Definition model_layers (h : list obj) (model : loc) : option (list loc) :=
  match h !! model with
  | Some (ModelObj _ _ layers) => Some layers
  | _ => None
  end.

Definition model_input_shape (h : list obj) (model : loc) : option shape :=
  match h !! model with
  | Some (ModelObj inputs _ _) => Some (kt_shape inputs)
  | _ => None
  end.

Definition model_output_shape (h : list obj) (model : loc) : option shape :=
  match h !! model with
  | Some (ModelObj _ outputs _) => Some (kt_shape outputs)
  | _ => None
  end.

Definition layer_config_of (h : list obj) (l : loc) : option layer_config :=
  match h !! l with
  | Some (LayerObj cfg _) => Some cfg
  | _ => None
  end.

Definition layer_weights (h : list obj) (l : loc) : option weights :=
  match h !! l with
  | Some (LayerObj _ ws) => ws
  | _ => None
  end.

(** [[layer.get_config() for layer in model.layers]] *)
Definition model_layer_configs (h : list obj) (model : loc) : option (list layer_config) :=
  model_layers h model ≫= mapM (layer_config_of h).

Definition is_encoder (h : list obj) (l : loc) : bool :=
  match layer_config_of h l with
  | Some (BertModelLayer _ _) => true
  | _ => false
  end.

(** The encoder sublayer of a model. *)
Definition model_encoder (h : list obj) (model : loc) : option loc :=
  model_layers h model ≫= λ layers, head (List.filter (is_encoder h) layers).

(** The objects that make up a model: the model object and its layers. *)
Definition model_objects (h : list obj) (model : loc) : list loc :=
  model :: default [] (model_layers h model).

End Observations.

(** A batch of sequences of vectors as an array of three axes, and a batch
    of vectors as an array of two. *)
Definition nd1 {A} (v : list A) : ndarray A := Arr (Scalar <$> v).
Definition nd2 {A} (m : list (list A)) : ndarray A := Arr (nd1 <$> m).
Definition nd3 {A} (t : list (list (list A))) : ndarray A := Arr (nd2 <$> t).

(** The nested lists that are the value of a tensor of shape [(b, L, H)],
    and of one of shape [(b, H)]: every axis has one length. *)
Definition has_shape3 {A} (b L H : nat) (t : list (list (list A))) : Prop :=
  length t = b ∧ Forall (λ seq, length seq = L ∧ Forall (λ v, length v = H) seq) t.
Definition has_shape2 {A} (b H : nat) (m : list (list A)) : Prop :=
  length m = b ∧ Forall (λ v, length v = H) m.

(** ** A small concrete process, to run the definitions

    A file system that is a finite map from names to directories and
    files, a counter for the random generator, parameters that are short
    integer vectors.  It stands in for the external collaborators when
    the functions above are evaluated on concrete inputs. *)

Module Mock.

Inductive node :=
| Dir
| File (content : string).

Definition isdir (s : gmap string node) (name : string) : bool :=
  match s !! name with
  | Some Dir => true
  | _ => false
  end.

Definition mkdirs (name : string) (exist_ok : bool) (s : gmap string node)
    : option exn * gmap string node :=
  match s !! name with
  | Some Dir =>
      if exist_ok then (None, s) else (Some (Exn "FileExistsError" name), s)
  | Some (File _) => (Some (Exn "FileExistsError" name), s)
  | None =>
      if String.eqb name "" then (Some (Exn "FileNotFoundError" name), s)
      else (None, <[name:=Dir]> s)
  end.

Definition read (s : gmap string node) (name : string) : exn + string :=
  match s !! name with
  | Some (File content) => inr content
  | _ => inl (Exn "NotFoundError" name)
  end.

(** Two configurations are understood: a base encoder, and the same with
    an adapter size. *)
Definition base_params (adapter : option Z) : bert_params :=
  {| num_layers := 12; num_heads := 12; hidden_size := 768;
     intermediate_size := 3072; vocab_size := 30522;
     max_position_embeddings := 512; adapter_size := adapter |}.

Definition parse (json : string) : exn + bert_params :=
  if String.eqb json "base" then inr (base_params None)
  else if String.eqb json "base+adapter" then inr (base_params (Some 64))
  else inl (Exn "JSONDecodeError" json).

Definition codes (s : string) : list Z :=
  (λ a, Z.of_nat (nat_of_ascii a)) <$> list_ascii_of_string s.

(** Keras as it validates sizes, or a variant that accepts everything. *)
Definition rejects (strict : bool) (history : list call) (c : call) : option exn :=
  match c with
  | layer_new_call (InputLayer shape _ _) =>
      if strict && existsb (λ d, d <? 0) shape
      then Some (Exn "ValueError" "negative dimension") else None
  | layer_new_call (Dense units _) =>
      if strict && (units <=? 0)
      then Some (Exn "ValueError" "units must be positive") else None
  | layer_apply_call (BertModelLayer p _) [_; Some seq_len] =>
      if strict && (max_position_embeddings p <? seq_len)
      then Some (Exn "ValueError" "sequence longer than position embeddings")
      else None
  | _ => None
  end.

(** Layers with parameters draw them from the generator. *)
Definition init (cfg : layer_config) (s : shape) (r : nat) : list Z * nat :=
  match cfg with
  | BertModelLayer _ _ =>
      ([Z.of_nat r; Z.of_nat r + 1; Z.of_nat r + 2; Z.of_nat r + 3], (r + 4)%nat)
  | Dense _ _ => ([Z.of_nat r; Z.of_nat r + 1], (r + 2)%nat)
  | _ => ([], r)
  end.

(** A checkpoint overwrites the parameters it has a value for and leaves
    the others as they are. *)
Definition restore (s : gmap string node) (ckpt : string) (p : bert_params)
    (ws : list Z) : exn + list Z :=
  match read s ckpt with
  | inl e => inl e
  | inr content => inr (codes content ++ drop (length (codes content)) ws)
  end.

(** What the loader prints: nothing when it cannot open the checkpoint,
    otherwise a line when parameters are left without a value, and its
    report. *)
Definition report (s : gmap string node) (ckpt : string) (p : bert_params)
    (ws : list Z) : list string :=
  match read s ckpt with
  | inl _ => []
  | inr content =>
      (if (length (codes content) <? length ws)%nat
       then ["loader: No value for some weights"] else []) ++
      ["Done loading BERT weights from: " +:+ ckpt;
       "Unused weights from checkpoint:"]
  end.

Definition position (a : ascii) (v : string) : Z :=
  match find (λ '(_, b), Ascii.eqb a b) (imap pair (list_ascii_of_string v)) with
  | Some (i, _) => Z.of_nat i
  | None => -1
  end.

Definition ids (v : string) (text : string) : list Z :=
  (λ a, position a v) <$> list_ascii_of_string text.

Definition describe (layers : list loc) (described : list (layer_config * option (list Z)))
    : exn + list string :=
  if bool_decide (length described = length layers)
     && forallb (λ '(_, ws), bool_decide (is_Some ws)) described
  then inr ((λ '(cfg, _),
              match cfg with
              | InputLayer _ _ _ => "InputLayer"
              | BertModelLayer _ _ => "BertModelLayer"
              | Lambda _ => "Lambda"
              | Dropout _ => "Dropout"
              | Dense _ _ => "Dense"
              end) <$> described)
  else inl (Exn "ValueError" "This model has not yet been built").

Definition framework (strict : bool) : Framework :=
  {| fs := gmap string node;
     rng := nat;
     weights := list Z;
     stock_config := bert_params;
     vocab := string;
     os_path_isdir := isdir;
     os_makedirs := mkdirs;
     GFile_read := read;
     from_json_string := parse;
     map_stock_config_to_params := inr;
     keras_rejects := rejects strict;
     initial_weights := init;
     checkpoint_weights := restore;
     loader_output := report;
     vocab_of_text := inr;
     token_ids := ids;
     summary_text := describe |}.

(** A disk with an encoder directory, its configuration (which asks for
    adapters), a checkpoint and a vocabulary. *)
Definition disk : gmap string node :=
  <["/tmp/enc" := Dir]>
  (<["/tmp/enc/bert_config.json" := File "base+adapter"]>
  (<["/tmp/enc/bert_model.ckpt" := File "ABCD"]>
  (<["/tmp/enc/vocab.txt" := File "abcdefgh"]> ∅))).

Definition process (strict : bool) (environ : gmap string string)
    (s : gmap string node) : @world (framework strict) :=
  @World (framework strict) environ s [] 0%nat [] [].

Definition environ : gmap string string := <["BERT_DIR" := "/tmp/enc"]> ∅.

Definition cls : Definition_cls :=
  {| bert_dir := "/tmp/enc";
     bert_config := "/tmp/enc/bert_config.json";
     bert_model := "/tmp/enc/bert_model.ckpt" |}.

End Mock.


(** * Properties *)

Section Steps.
Context {F : Framework}.

Lemma lookup_seg (h seg : list obj) (k : nat) :
  (h ++ seg) !! (length h + k)%nat = seg !! k.
Proof. rewrite lookup_app_r by lia. f_equal. lia. Qed.

Lemma lookup_seg0 (h seg : list obj) : (h ++ seg) !! length h = seg !! 0%nat.
Proof. rewrite <- (lookup_seg h seg 0). f_equal. lia. Qed.

Lemma insert_seg (h seg : list obj) (k : nat) (o : obj) :
  <[(length h + k)%nat := o]> (h ++ seg) = h ++ <[k := o]> seg.
Proof. rewrite insert_app_r_alt by lia. do 2 f_equal. lia. Qed.

Lemma insert_seg0 (h seg : list obj) (o : obj) :
  <[length h := o]> (h ++ seg) = h ++ <[0%nat := o]> seg.
Proof. rewrite <- (insert_seg h seg 0). f_equal. lia. Qed.

(** *** Inversion of a sequence *)

Lemma bind_inv {A B} (m : M A) (k : A → M B) w r w' :
  bind m k w = (r, w') →
  (∃ e, m w = (Raise e, w') ∧ r = Raise e) ∨
  (∃ a w1, m w = (Ok a, w1) ∧ k a w1 = (r, w')).
Proof.
  unfold bind. destruct (m w) as [[a|e] w1]; intros H.
  - right. eauto.
  - left. exists e. by simplify_eq.
Qed.

Lemma bind_Ok {A B} (m : M A) (k : A → M B) w b w' :
  bind m k w = (Ok b, w') →
  ∃ a w1, m w = (Ok a, w1) ∧ k a w1 = (Ok b, w').
Proof. intros [(e & _ & ?)|?]%bind_inv; [done|eauto]. Qed.

(** *** What one step does *)

Lemma keras_run c w :
  keras c w =
  (match keras_rejects (w_trace w) c with Some e => Raise e | None => Ok tt end,
   logged c w).
Proof. unfold keras, bind, get, log, modify. by destruct (keras_rejects _ c). Qed.

Lemma layer_new_run cfg w :
  layer_new cfg w =
  match keras_rejects (w_trace w) (layer_new_call cfg) with
  | Some e => (Raise e, logged (layer_new_call cfg) w)
  | None => (Ok (length (w_heap w)),
             set_heap (w_heap w ++ [LayerObj cfg None]) (logged (layer_new_call cfg) w))
  end.
Proof.
  unfold layer_new, bind. rewrite keras_run.
  by destruct (keras_rejects _ _).
Qed.

Lemma layer_build_run l cfg s w : layer_build l cfg s w = (Ok tt, built l cfg s w).
Proof. reflexivity. Qed.

Lemma layer_call_run l x w cfg :
  w_heap w !! l = Some (LayerObj cfg None) →
  layer_call l x w =
  match keras_rejects (w_trace w) (layer_apply_call cfg (kt_shape x)) with
  | Some e => (Raise e, logged (layer_apply_call cfg (kt_shape x)) w)
  | None =>
      match compute_output_shape cfg (kt_shape x) with
      | None => (Raise (Exn "ValueError" "incompatible input shape"),
                 logged (layer_apply_call cfg (kt_shape x)) w)
      | Some s => (Ok {| kt_shape := s; kt_history := kt_history x ++ [l] |},
                   built l cfg (kt_shape x) (logged (layer_apply_call cfg (kt_shape x)) w))
      end
  end.
Proof.
  intros Hl. unfold layer_call, bind at 1, deref. rewrite Hl.
  unfold bind at 1. rewrite keras_run.
  destruct (keras_rejects _ _); [done|].
  by destruct (compute_output_shape _ _).
Qed.

Lemma Input_run shape dtype name w :
  Input shape dtype name w =
  let cfg := InputLayer shape dtype name in
  match keras_rejects (w_trace w) (layer_new_call cfg) with
  | Some e => (Raise e, logged (layer_new_call cfg) w)
  | None =>
      (Ok {| kt_shape := None :: (Some <$> shape); kt_history := [length (w_heap w)] |},
       built (length (w_heap w)) cfg (None :: (Some <$> shape))
         (set_heap (w_heap w ++ [LayerObj cfg None]) (logged (layer_new_call cfg) w)))
  end.
Proof.
  unfold Input, bind at 1. rewrite layer_new_run. cbn zeta.
  by destruct (keras_rejects _ _).
Qed.

Lemma Model_run inputs outputs w :
  kt_history inputs `prefix_of` kt_history outputs →
  Model inputs outputs w =
  match keras_rejects (w_trace w) (Model_new_call inputs outputs) with
  | Some e => (Raise e, logged (Model_new_call inputs outputs) w)
  | None => (Ok (length (w_heap w)),
             set_heap (w_heap w ++ [ModelObj inputs outputs (kt_history outputs)])
               (logged (Model_new_call inputs outputs) w))
  end.
Proof.
  intros Hp. unfold Model, bind. rewrite keras_run, bool_decide_eq_true_2 by done.
  by destruct (keras_rejects _ _).
Qed.

Lemma load_stock_weights_run bert ckpt w p name ws :
  w_heap w !! bert = Some (LayerObj (BertModelLayer p name) (Some ws)) →
  load_stock_weights bert ckpt w =
  let w1 := set_stdout (w_stdout w ++ loader_output (w_fs w) ckpt p ws)
              (logged (load_stock_weights_call bert ckpt) w) in
  match checkpoint_weights (w_fs w) ckpt p ws with
  | inl e => (Raise e, w1)
  | inr ws' =>
      (Ok tt, set_heap (<[bert := LayerObj (BertModelLayer p name) (Some ws')]> (w_heap w)) w1)
  end.
Proof.
  intros Hl. unfold load_stock_weights, bind at 1, log, modify.
  unfold bind at 1, deref. cbn [w_heap set_trace]. rewrite Hl.
  unfold bind at 1, get. unfold bind, lift, modify.
  cbn [w_fs w_stdout set_trace set_stdout].
  by destruct (checkpoint_weights _ _ _ _).
Qed.

Lemma pair_eq {A B} (p : A * B) a b : p.1 = a → p.2 = b → p = (a, b).
Proof. destruct p. cbn. by intros -> ->. Qed.

End Steps.

Section Runs.
Context {F : Framework}.

Lemma config_block_run (name : string) w :
  with_GFile name (λ reader,
    json <- reader_read reader ;;
    bc <- StockBertConfig_from_json_string json ;;
    bert_params <- map_stock_config_to_params_ bc ;;
    let bert_params := set_adapter_size None bert_params in
    BertModelLayer_from_params bert_params "bert") w =
  let w0 := logged (GFile_read_call name) w in
  match GFile_read (w_fs w) name with
  | inl e => (Raise e, closed name w0)
  | inr json =>
      let w1 := logged (from_json_string_call json) w0 in
      match from_json_string json with
      | inl e => (Raise e, closed name w1)
      | inr bc =>
          let w2 := logged map_stock_config_to_params_call w1 in
          match map_stock_config_to_params bc with
          | inl e => (Raise e, closed name w2)
          | inr p0 =>
              let cfg := BertModelLayer (set_adapter_size None p0) "bert" in
              match keras_rejects (w_trace w2) (layer_new_call cfg) with
              | Some e => (Raise e, closed name (logged (layer_new_call cfg) w2))
              | None =>
                  (Ok (length (w_heap w)),
                   closed name (set_heap (w_heap w ++ [LayerObj cfg None])
                                  (logged (layer_new_call cfg) w2)))
              end
          end
      end
  end.
Proof.
  unfold with_GFile, finally, reader_read, StockBertConfig_from_json_string,
    map_stock_config_to_params_, BertModelLayer_from_params, bind, log, modify, get, lift,
    ret, raise.
  cbn [w_fs set_trace].
  destruct (GFile_read _ _) as [e|json]; [done|].
  destruct (from_json_string _) as [e|bc]; [done|].
  destruct (map_stock_config_to_params _) as [e|p0]; [done|].
  cbn zeta. rewrite layer_new_run.
  by destruct (keras_rejects _ _).
Qed.

Lemma Model_build_run model input_shape w :
  Model_build model input_shape w =
  (match keras_rejects (w_trace w) (Model_build_call model input_shape) with
   | Some e => Raise e
   | None => Ok tt
   end, logged (Model_build_call model input_shape) w).
Proof. apply keras_run. Qed.

Lemma ret_run {A} (a : A) w : ret a w = (Ok a, w).
Proof. reflexivity. Qed.

End Runs.

Ltac world_norm :=
  unfold closed, built, logged, set_heap, set_trace, set_rng, set_fs, set_stdout in *;
  cbn [w_heap w_trace w_rng w_fs w_environ w_stdout kt_shape kt_history] in *;
  repeat (first [ rewrite length_app in *
                | rewrite <- app_assoc in *
                | rewrite insert_seg in *
                | rewrite insert_seg0 in * ];
          cbn [length app insert list_insert] in *).

Ltac heap_lookup :=
  cbn [w_heap]; first [ rewrite lookup_seg0 | rewrite lookup_seg ]; reflexivity.

Ltac run_with lem H :=
  erewrite lem in H by first [ heap_lookup | by eexists ].

Ltac run_prim H :=
  first [ run_with config_block_run H
        | run_with Input_run H
        | run_with layer_new_run H
        | run_with layer_call_run H
        | run_with Model_run H
        | run_with Model_build_run H
        | run_with load_stock_weights_run H
        | run_with ret_run H ];
  cbn [kt_shape kt_history compute_output_shape subscript_shape first_token
       fmap option_fmap option_map list_fmap reverse rev_append app
       hidden_size set_adapter_size] in H;
  cbn zeta in H;
  repeat match type of H with
         | context [match ?x with _ => _ end] => destruct x eqn:?
         end;
  simplify_eq; world_norm.

Ltac run_bind H :=
  let Hs := fresh "Hs" in
  let Hr := fresh "Hr" in
  apply bind_inv in H as [(? & Hs & Hr) | (? & ? & Hs & H)];
  [ first [ discriminate Hr | run_prim Hs ] | run_prim Hs ].

Ltac run_create_model H :=
  unfold create_model in H; repeat run_bind H; try run_prim H.

Section Outcomes.
Context {F : Framework}.

Lemma create_model_Ok cls L N w m w' :
  create_model cls L N w = (Ok m, w') →
  ∃ p0 enc0 enc w_in w_pool w_drop w_fc w_drop1 w_out,
    let p := set_adapter_size None p0 in
    let n := length (w_heap w) in
    read_config (w_fs w) (bert_config cls) = inr p0 ∧
    m = (n + 7)%nat ∧
    w_heap w' = w_heap w ++ graph L N p n enc w_in w_pool w_drop w_fc w_drop1 w_out ∧
    freshly_initialized (BertModelLayer p "bert") [None; Some L] enc0 ∧
    checkpoint_weights (w_fs w) (bert_model cls) p enc0 = inr enc ∧
    freshly_initialized (InputLayer [L] "int32" "input_ids") [None; Some L] w_in ∧
    freshly_initialized (Lambda first_token) [None; Some L; Some (hidden_size p)] w_pool ∧
    freshly_initialized (Dropout 0.5) [None; Some (hidden_size p)] w_drop ∧
    freshly_initialized (Dense 768 "tanh") [None; Some (hidden_size p)] w_fc ∧
    freshly_initialized (Dropout 0.5) [None; Some 768] w_drop1 ∧
    freshly_initialized (Dense N "softmax") [None; Some 768] w_out ∧
    [w_in; enc0; w_pool; w_drop; w_fc; w_drop1; w_out]
      = draws (build_order L N p) (w_rng w) ∧
    w_stdout w' = w_stdout w ++ loader_output (w_fs w) (bert_model cls) p enc0 ∧
    w_fs w' = w_fs w ∧ w_environ w' = w_environ w.
Proof.
  destruct w as [env fs0 h r0 out tr]. intros H.
  run_create_model H.
  eexists b, _, _, _, _, _, _, _, _. cbn zeta.
  unfold read_config. rewrite Heqs, Heqs0.
  repeat split; try done; by eexists.
Qed.

Lemma create_model_inv cls L N w r w' :
  create_model cls L N w = (r, w') →
  w_fs w' = w_fs w ∧ w_environ w' = w_environ w ∧
  (∃ printed, w_stdout w' = w_stdout w ++ printed) ∧
  (∃ seg, w_heap w' = w_heap w ++ seg) ∧
  match read_config (w_fs w) (bert_config cls) with
  | inl e =>
      r = Raise e ∧ w_heap w' = w_heap w ∧
      ∃ evs, w_trace w' = w_trace w ++ evs ∧ forallb config_file_call evs = true
  | inr p0 =>
      ∃ json post,
        GFile_read (w_fs w) (bert_config cls) = inr json ∧
        w_trace w' =
          w_trace w ++ config_calls cls json (set_adapter_size None p0) ++ post ∧
        post `prefix_of` wiring cls L N (set_adapter_size None p0) (length (w_heap w)) ∧
        (∀ m, r = Ok m →
           post = wiring cls L N (set_adapter_size None p0) (length (w_heap w))) ∧
        (∀ e, r = Raise e →
           (∃ history c,
              c ∈ config_calls cls json (set_adapter_size None p0) ++ post ∧
              keras_rejects history c = Some e) ∨
           (∃ enc0,
              freshly_initialized (BertModelLayer (set_adapter_size None p0) "bert")
                [None; Some L] enc0 ∧
              checkpoint_weights (w_fs w) (bert_model cls)
                (set_adapter_size None p0) enc0 = inl e))
  end.
Proof.
  destruct w as [env fs0 h r0 out tr]. intros H.
  run_create_model H.
  all: cbn [w_fs w_environ w_stdout w_heap w_trace]; unfold read_config.
  all: repeat match goal with
              | Hx : _ = inl _ |- _ => rewrite Hx
              | Hx : _ = inr _ |- _ => rewrite Hx
              end.
  all: split_and!; try done.
  all: try (by exists []; rewrite app_nil_r).
  all: try (by eexists).
  all: try (by eexists; split).
  all: eexists _, _; split_and!; [done|done|by eexists|by intros|].
  all: intros e' [= <-].
  all: try (left; eexists _, _; split; [|eassumption]; cbn; by repeat constructor).
  right. eexists. split; [by eexists|done].
Qed.

End Outcomes.


(** ** Concrete runs *)

Example os_path_join_relative :
  os_path_join "/tmp/enc" "bert_config.json" = "/tmp/enc/bert_config.json".
Proof. reflexivity. Qed.

Example os_path_join_trailing_sep :
  os_path_join "/tmp/enc/" "vocab.txt" = "/tmp/enc/vocab.txt".
Proof. reflexivity. Qed.

Example os_path_join_absolute :
  os_path_join "/tmp/enc" "/etc/bert.json" = "/etc/bert.json".
Proof. reflexivity. Qed.

Example os_path_join_empty : os_path_join "" "bert" = "bert".
Proof. reflexivity. Qed.

(** With [BERT_DIR] unset, everything is below the base directory. *)
Example Definition_body_defaults :
  (@Definition_body (Mock.framework true) "/srv/woodgate" (Mock.process true ∅ ∅)).1
  = Ok {| bert_dir := "/srv/woodgate/bert";
          bert_config := "/srv/woodgate/bert/bert_config.json";
          bert_model := "/srv/woodgate/bert/bert_model.ckpt" |}.
Proof. vm_compute. reflexivity. Qed.

(** The encoder directory is a file: the class body fails. *)
Example Definition_body_not_a_directory :
  (@Definition_body (Mock.framework true) "/srv/woodgate"
     (Mock.process true ∅ (<["/srv/woodgate/bert" := Mock.File ""]> ∅))).1
  = Raise (Exn "FileExistsError" "/srv/woodgate/bert").
Proof. vm_compute. reflexivity. Qed.

(** A run on the sample disk: eight objects, the model last. *)
Example create_model_sample :
  let r := @create_model (Mock.framework true) Mock.cls 8 5
             (Mock.process true Mock.environ Mock.disk) in
  r.1 = Ok 7%nat ∧ length (w_heap r.2) = 8%nat ∧ length (w_trace r.2) = 20%nat.
Proof. vm_compute. done. Qed.

(** A Keras that validates sizes rejects a negative length; the
    exception is the one it answers. *)
Example create_model_negative_length :
  (@create_model (Mock.framework true) Mock.cls (-3) 5
     (Mock.process true Mock.environ Mock.disk)).1
  = Raise (Exn "ValueError" "negative dimension").
Proof. vm_compute. reflexivity. Qed.

(** A malformed configuration. *)
Example create_model_malformed_config :
  (@create_model (Mock.framework true) Mock.cls 8 5
     (Mock.process true Mock.environ
        (<["/tmp/enc/bert_config.json" := Mock.File "{"]> Mock.disk))).1
  = Raise (Exn "JSONDecodeError" "{").
Proof. vm_compute. reflexivity. Qed.

(** A missing checkpoint: the error comes after the graph has been
    built, so the objects exist, but no model is returned. *)
Example create_model_missing_checkpoint :
  let r := @create_model (Mock.framework true) Mock.cls 8 5
             (Mock.process true Mock.environ
                (delete "/tmp/enc/bert_model.ckpt" Mock.disk)) in
  r.1 = Raise (Exn "NotFoundError" "/tmp/enc/bert_model.ckpt") ∧
  length (w_heap r.2) = 8%nat.
Proof. vm_compute. done. Qed.

(** A checkpoint with values for only two of the four parameters of the
    sample encoder: the loader accepts it, the other two parameters stay
    as the initializers drew them, and two models differ in them. *)
Example create_model_partial_checkpoint :
  let F := Mock.framework true in
  let w := Mock.process true Mock.environ
             (<["/tmp/enc/bert_model.ckpt" := Mock.File "AB"]> Mock.disk) in
  let w1 := (@create_model F Mock.cls 8 5 w).2 in
  let w2 := (@create_model F Mock.cls 8 5 w1).2 in
  layer_weights (w_heap w2) 0%nat = Some [65; 66; 2; 3] ∧
  layer_weights (w_heap w2) 8%nat = Some [65; 66; 10; 11].
Proof. vm_compute. done. Qed.

(** The standard output after a run, and after the summary of the
    returned model. *)
Example create_model_prints :
  w_stdout (@create_model (Mock.framework true) Mock.cls 8 5
              (Mock.process true Mock.environ Mock.disk)).2
  = ["Done loading BERT weights from: /tmp/enc/bert_model.ckpt";
     "Unused weights from checkpoint:"].
Proof. vm_compute. reflexivity. Qed.

Example ModelSummary_print_sample :
  let F := Mock.framework true in
  let w' := (@create_model F Mock.cls 8 5 (Mock.process true Mock.environ Mock.disk)).2 in
  w_stdout (@ModelSummary_print F 7%nat w').2
  = ["Done loading BERT weights from: /tmp/enc/bert_model.ckpt";
     "Unused weights from checkpoint:";
     "InputLayer"; "BertModelLayer"; "Lambda"; "Dropout"; "Dense"; "Dropout"; "Dense"].
Proof. vm_compute. reflexivity. Qed.

(** First-token pooling on a batch of two sequences. *)
Example first_token_sample :
  getitem first_token (nd3 [[[1; 2]; [3; 4]; [5; 6]]; [[7; 8]; [9; 10]; [11; 12]]])
  = Some (nd2 [[1; 2]; [7; 8]]).
Proof. reflexivity. Qed.
(** ** The architecture of the model (C1) *)

Section Architecture.
Context {F : Framework}.

Lemma mapM_Some_id {A} (xs : list A) : mapM (λ x, Some x) xs = Some xs.
Proof. induction xs as [|x xs IH]; [done|]. cbn. by rewrite IH. Qed.

Lemma getitem_token {A} (seq : list (list A)) :
  getitem [At 0%nat; SliceAll] (nd2 seq) = nd1 <$> seq !! 0%nat.
Proof.
  destruct seq as [|v seq]; [done|].
  cbn. by rewrite mapM_Some_id.
Qed.

Lemma mapM_tokens {A} (t : list (list (list A))) :
  mapM (getitem [At 0%nat; SliceAll]) (nd2 <$> t)
  = fmap nd1 <$> mapM (λ seq, seq !! 0%nat) t.
Proof.
  induction t as [|seq t IH]; [done|].
  cbn [fmap list_fmap mapM]. rewrite getitem_token, IH.
  destruct (seq !! 0%nat); [|done]. cbn.
  by destruct (mapM _ t).
Qed.

(** [seq[:, 0, :]] keeps, of every sequence of the batch, the vector at
    position 0; position 0 is out of range when a sequence is empty. *)
Lemma first_token_pooling {A} (t : list (list (list A))) :
  getitem first_token (nd3 t) = nd2 <$> mapM (λ seq, seq !! 0%nat) t.
Proof.
  change (getitem first_token (nd3 t))
    with (Arr <$> mapM (getitem [At 0%nat; SliceAll]) (nd2 <$> t)).
  rewrite mapM_tokens. by destruct (mapM _ t).
Qed.

(** *** Reading the graph in a heap *)

Lemma graph_holds h L N p enc w_in w_pool w_drop w_fc w_drop1 w_out :
  holds_graph (h ++ graph L N p (length h) enc w_in w_pool w_drop w_fc w_drop1 w_out)
    L N p (length h) enc w_in w_pool w_drop w_fc w_drop1 w_out.
Proof. intros k o Hk. by rewrite lookup_seg. Qed.

Lemma holds_graph_app h rest L N p n enc w_in w_pool w_drop w_fc w_drop1 w_out :
  holds_graph h L N p n enc w_in w_pool w_drop w_fc w_drop1 w_out →
  holds_graph (h ++ rest) L N p n enc w_in w_pool w_drop w_fc w_drop1 w_out.
Proof. intros Hg k o Hk. apply lookup_app_l_Some. by apply Hg. Qed.

Lemma holds_graph_lookups h L N p n enc w_in w_pool w_drop w_fc w_drop1 w_out :
  holds_graph h L N p n enc w_in w_pool w_drop w_fc w_drop1 w_out →
  h !! n = Some (LayerObj (BertModelLayer p "bert") (Some enc)) ∧
  h !! (n + 1)%nat = Some (LayerObj (InputLayer [L] "int32" "input_ids") (Some w_in)) ∧
  h !! (n + 2)%nat = Some (LayerObj (Lambda first_token) (Some w_pool)) ∧
  h !! (n + 3)%nat = Some (LayerObj (Dropout 0.5) (Some w_drop)) ∧
  h !! (n + 4)%nat = Some (LayerObj (Dense 768 "tanh") (Some w_fc)) ∧
  h !! (n + 5)%nat = Some (LayerObj (Dropout 0.5) (Some w_drop1)) ∧
  h !! (n + 6)%nat = Some (LayerObj (Dense N "softmax") (Some w_out)) ∧
  h !! (n + 7)%nat = Some (ModelObj (input_ids_of L n) (logits_of N n)
                             [n + 1; n; n + 2; n + 3; n + 4; n + 5; n + 6]%nat).
Proof.
  intros Hg. split_and!; [rewrite <- (Nat.add_0_r n) at 1|..]; by apply Hg.
Qed.

Lemma holds_graph_model h L N p n enc w_in w_pool w_drop w_fc w_drop1 w_out :
  holds_graph h L N p n enc w_in w_pool w_drop w_fc w_drop1 w_out →
  model_layers h (n + 7)%nat = Some [n + 1; n; n + 2; n + 3; n + 4; n + 5; n + 6]%nat ∧
  model_layer_configs h (n + 7)%nat =
    Some [ InputLayer [L] "int32" "input_ids"; BertModelLayer p "bert";
           Lambda first_token; Dropout 0.5; Dense 768 "tanh"; Dropout 0.5;
           Dense N "softmax" ] ∧
  model_input_shape h (n + 7)%nat = Some [None; Some L] ∧
  model_output_shape h (n + 7)%nat = Some [None; Some N] ∧
  model_encoder h (n + 7)%nat = Some n ∧
  layer_config_of h n = Some (BertModelLayer p "bert") ∧
  layer_weights h n = Some enc.
Proof.
  intros (G0 & G1 & G2 & G3 & G4 & G5 & G6 & Gm)%holds_graph_lookups.
  unfold model_layer_configs, model_encoder, model_layers, model_input_shape,
    model_output_shape, layer_weights.
  rewrite Gm, G0. cbn [mbind option_bind List.filter].
  unfold is_encoder at 1, layer_config_of. rewrite G1.
  unfold is_encoder at 1, layer_config_of. rewrite G0.
  split_and!; try done.
  cbn. by rewrite G0, G1, G2, G3, G4, G5, G6.
Qed.

(** C1: for positive [L] and [N], the model that [create_model] returns
    is the chain input placeholder of shape [(L,)] and type int32, encoder,
    first-token pooling, dropout 0.5, dense 768 tanh, dropout 0.5, dense
    [N] softmax, in this order; the pooling selects position 0 of every
    sequence; the last axis of the model's output has size exactly [N]. *)
Theorem create_model_architecture cls (L N : Z) w model w' :
  0 < L → 0 < N →
  create_model cls L N w = (Ok model, w') →
  (∃ p, model_layer_configs (w_heap w') model =
        Some [ InputLayer [L] "int32" "input_ids";
               BertModelLayer p "bert";
               Lambda first_token;
               Dropout 0.5;
               Dense 768 "tanh";
               Dropout 0.5;
               Dense N "softmax" ]) ∧
  (∀ (A : Type) (t : list (list (list A))),
     getitem first_token (nd3 t) = nd2 <$> mapM (λ seq, seq !! 0%nat) t) ∧
  model_input_shape (w_heap w') model = Some [None; Some L] ∧
  (∃ front, model_output_shape (w_heap w') model = Some (front ++ [Some N])).
Proof.
  intros _ _ H.
  apply create_model_Ok in H
    as (p0 & enc0 & enc & w_in & w_pool & w_drop & w_fc & w_drop1 & w_out & H).
  cbn zeta in H. destruct H as (_ & -> & Hh & _).
  pose proof (graph_holds (w_heap w) L N (set_adapter_size None p0)
                enc w_in w_pool w_drop w_fc w_drop1 w_out) as G.
  rewrite <- Hh in G.
  apply holds_graph_model in G as (_ & Gc & Gi & Go & _).
  split_and!.
  - by exists (set_adapter_size None p0).
  - intros. apply first_token_pooling.
  - done.
  - by exists [None].
Qed.

End Architecture.

Lemma create_model_architecture_witness :
  let w := Mock.process true Mock.environ Mock.disk in
  let w' := (@create_model (Mock.framework true) Mock.cls 8 5 w).2 in
  (∃ p, model_layer_configs (w_heap w') 7%nat =
        Some [ InputLayer [8] "int32" "input_ids";
               BertModelLayer p "bert";
               Lambda first_token;
               Dropout 0.5;
               Dense 768 "tanh";
               Dropout 0.5;
               Dense 5 "softmax" ]) ∧
  (∀ (A : Type) (t : list (list (list A))),
     getitem first_token (nd3 t) = nd2 <$> mapM (λ seq, seq !! 0%nat) t) ∧
  model_input_shape (w_heap w') 7%nat = Some [None; Some 8] ∧
  (∃ front, model_output_shape (w_heap w') 7%nat = Some (front ++ [Some 5])).
Proof.
  intros w w'.
  apply (@create_model_architecture (Mock.framework true) Mock.cls 8 5 w 7%nat w');
    [lia | lia | apply pair_eq; [vm_compute; reflexivity | reflexivity]].
Defined.

(** ** The resolved paths (C2) and the encoder directory (C7) *)

Section Resolver.
Context {F : Framework}.

Lemma Definition_body_run base w :
  Definition_body base w =
  let d := resolved_bert_dir base w in
  let w1 := logged (os_makedirs_call d true) w in
  match os_makedirs d true (w_fs w) with
  | (None, s) =>
      (Ok {| bert_dir := d;
             bert_config :=
               os_getenv (w_environ w) "BERT_CONFIG" (os_path_join d "bert_config.json");
             bert_model :=
               os_getenv (w_environ w) "BERT_MODEL" (os_path_join d "bert_model.ckpt") |},
       set_fs s w1)
  | (Some e, s) => (Raise e, set_fs s w1)
  end.
Proof.
  unfold Definition_body, resolved_bert_dir, makedirs, getenv, bind, get, ret, raise, log,
    modify, logged. cbn [w_fs w_environ set_trace].
  by destruct (os_makedirs _ _ _) as [[e|] s].
Qed.

Lemma os_getenv_set environ key default v :
  environ !! key = Some v → os_getenv environ key default = v.
Proof. unfold os_getenv. by intros ->. Qed.

Lemma os_getenv_unset environ key default :
  environ !! key = None → os_getenv environ key default = default.
Proof. unfold os_getenv. by intros ->. Qed.

(** C2: whenever the class body gets past the creation of the directory,
    each of the three paths is the value of its environment variable if
    the variable is set, and otherwise the join of the resolved encoder
    directory with the fixed name (for the directory itself: of the base
    directory with [bert]), whatever combination of variables is set. *)
Theorem resolved_paths base w s' :
  os_makedirs (resolved_bert_dir base w) true (w_fs w) = (None, s') →
  ∃ cls w',
    Definition_body base w = (Ok cls, w') ∧
    (∀ v, w_environ w !! "BERT_DIR" = Some v → bert_dir cls = v) ∧
    (w_environ w !! "BERT_DIR" = None → bert_dir cls = os_path_join base "bert") ∧
    (∀ v, w_environ w !! "BERT_CONFIG" = Some v → bert_config cls = v) ∧
    (w_environ w !! "BERT_CONFIG" = None →
       bert_config cls = os_path_join (bert_dir cls) "bert_config.json") ∧
    (∀ v, w_environ w !! "BERT_MODEL" = Some v → bert_model cls = v) ∧
    (w_environ w !! "BERT_MODEL" = None →
       bert_model cls = os_path_join (bert_dir cls) "bert_model.ckpt").
Proof.
  intros Hmk. rewrite Definition_body_run. cbn zeta. rewrite Hmk.
  eexists _, _. split; [reflexivity|]. cbn [bert_dir bert_config bert_model].
  unfold resolved_bert_dir.
  split_and!; intros; first [ by apply os_getenv_set | by apply os_getenv_unset ].
Qed.

(** C7: after the class body has run, the encoder directory exists;
    running it again succeeds with the same paths and leaves the file
    system as it is; it does not fail when the directory already exists;
    and an error of the creation is the error of the class body. *)
Theorem encoder_directory_exists `{!FileSystemLaws F} base w :
  (∀ cls w', Definition_body base w = (Ok cls, w') →
     os_path_isdir (w_fs w') (bert_dir cls) = true ∧
     calls_since w w' = [os_makedirs_call (bert_dir cls) true] ∧
     ∃ w'', Definition_body base w' = (Ok cls, w'') ∧ w_fs w'' = w_fs w') ∧
  (os_path_isdir (w_fs w) (resolved_bert_dir base w) = true →
     ∃ cls w', Definition_body base w = (Ok cls, w') ∧ w_fs w' = w_fs w) ∧
  (∀ e s, os_makedirs (resolved_bert_dir base w) true (w_fs w) = (Some e, s) →
     ∃ w', Definition_body base w = (Raise e, w')).
Proof.
  split_and!.
  - intros cls w'. rewrite Definition_body_run. cbn zeta.
    destruct (os_makedirs _ _ _) as [[e|] s] eqn:Hmk; [done|].
    intros [= <- <-]. cbn [bert_dir].
    pose proof (makedirs_creates _ _ _ _ Hmk) as Hdir.
    split_and!.
    + done.
    + unfold calls_since, logged. cbn [w_trace set_fs set_trace].
      by rewrite drop_app_length.
    + rewrite Definition_body_run. cbn zeta.
      unfold resolved_bert_dir, logged. cbn [w_environ w_fs set_fs set_trace].
      fold (resolved_bert_dir base w).
      rewrite (makedirs_exist_ok _ _ Hdir). by eexists.
  - intros Hdir. rewrite Definition_body_run. cbn zeta.
    rewrite (makedirs_exist_ok _ _ Hdir). by eexists _, _.
  - intros e s Hmk. rewrite Definition_body_run. cbn zeta. rewrite Hmk. by eexists.
Qed.

End Resolver.

#[local] Instance Mock_laws strict : FileSystemLaws (Mock.framework strict).
Proof.
  split; cbn; unfold Mock.mkdirs, Mock.isdir.
  - intros name exist_ok s s'.
    destruct (s !! name) as [[|content]|] eqn:Hs.
    + destruct exist_ok; intros [= <-]. by rewrite Hs.
    + done.
    + destruct (String.eqb name ""); intros [= <-]. by rewrite lookup_insert_eq.
  - intros name s. by destruct (s !! name) as [[|content]|].
Qed.

Lemma resolved_paths_witness :
  let environ : gmap string string := <["BERT_CONFIG" := "conf/tiny.json"]> Mock.environ in
  let w := Mock.process true environ Mock.disk in
  ∃ cls w',
    @Definition_body (Mock.framework true) "/srv/woodgate" w = (Ok cls, w') ∧
    (∀ v, w_environ w !! "BERT_DIR" = Some v → bert_dir cls = v) ∧
    (w_environ w !! "BERT_DIR" = None → bert_dir cls = os_path_join "/srv/woodgate" "bert") ∧
    (∀ v, w_environ w !! "BERT_CONFIG" = Some v → bert_config cls = v) ∧
    (w_environ w !! "BERT_CONFIG" = None →
       bert_config cls = os_path_join (bert_dir cls) "bert_config.json") ∧
    (∀ v, w_environ w !! "BERT_MODEL" = Some v → bert_model cls = v) ∧
    (w_environ w !! "BERT_MODEL" = None →
       bert_model cls = os_path_join (bert_dir cls) "bert_model.ckpt").
Proof.
  intros environ w.
  apply (@resolved_paths (Mock.framework true) "/srv/woodgate" w Mock.disk).
  vm_compute. reflexivity.
Defined.

Lemma encoder_directory_exists_witness :
  let F := Mock.framework true in
  let w := Mock.process true ∅ ∅ in
  let cls := {| bert_dir := "/srv/woodgate/bert";
                bert_config := "/srv/woodgate/bert/bert_config.json";
                bert_model := "/srv/woodgate/bert/bert_model.ckpt" |} in
  let w' := (@Definition_body F "/srv/woodgate" w).2 in
  os_path_isdir (w_fs w') "/srv/woodgate/bert" = true ∧
  calls_since w w' = [os_makedirs_call "/srv/woodgate/bert" true] ∧
  ∃ w'', @Definition_body F "/srv/woodgate" w' = (Ok cls, w'') ∧ w_fs w'' = w_fs w'.
Proof.
  intros F w cls w'.
  apply (proj1 (@encoder_directory_exists F (Mock_laws true) "/srv/woodgate" w) cls w').
  apply pair_eq; [vm_compute; reflexivity | reflexivity].
Defined.

(** ** The adapter size (C3) and the order of configuration and weights (C4) *)

Section Configuration.
Context {F : Framework}.

Lemma calls_since_app (w w' : world) evs :
  w_trace w' = w_trace w ++ evs → calls_since w w' = evs.
Proof. unfold calls_since. intros ->. apply drop_app_length. Qed.

Lemma config_file_calls_only evs c :
  forallb config_file_call evs = true → c ∈ evs → config_file_call c = true.
Proof.
  intros Hall Hin. apply list_elem_of_In in Hin.
  by apply (proj1 (forallb_forall _ _) Hall).
Qed.

(** The encoder is instantiated once in a run, in the [with] block. *)
Lemma wiring_no_encoder cls L N p n q name :
  layer_new_call (BertModelLayer q name) ∉ wiring cls L N p n.
Proof.
  unfold wiring. intros H.
  repeat (apply elem_of_cons in H as [H|H]; [discriminate H|]).
  by apply elem_of_nil in H.
Qed.

(** C3: in every run of [create_model], whatever the configuration file
    says about adapters, every request to instantiate an encoder carries
    the adapter size [None]: it is the parameters read from the file with
    the adapter size overwritten; and the encoder of a returned model has
    adapter size [None]. *)
Theorem adapter_size_forced cls L N w r w' :
  create_model cls L N w = (r, w') →
  (∀ p name, layer_new_call (BertModelLayer p name) ∈ calls_since w w' →
     adapter_size p = None ∧
     ∃ p0, read_config (w_fs w) (bert_config cls) = inr p0 ∧
           p = set_adapter_size None p0) ∧
  (∀ model, r = Ok model →
     ∃ bert p, model_encoder (w_heap w') model = Some bert ∧
               layer_config_of (w_heap w') bert = Some (BertModelLayer p "bert") ∧
               adapter_size p = None).
Proof.
  intros H. split.
  - intros p name Hin.
    apply create_model_inv in H as (_ & _ & _ & _ & H).
    destruct (read_config _ _) as [e|p0].
    + destruct H as (_ & _ & evs & Htr & Hall).
      rewrite (calls_since_app _ _ _ Htr) in Hin.
      by apply (config_file_calls_only _ _ Hall) in Hin.
    + destruct H as (json & post & _ & Htr & Hpre & _).
      rewrite (calls_since_app _ _ _ Htr) in Hin.
      apply elem_of_app in Hin as [Hin|Hin].
      * unfold config_calls in Hin.
        repeat (apply elem_of_cons in Hin as [Hin|Hin]; [try discriminate Hin|]).
        -- injection Hin as -> _. eauto.
        -- by apply elem_of_nil in Hin.
      * apply (elem_of_prefix _ _ _ Hin) in Hpre.
        by apply wiring_no_encoder in Hpre.
  - intros model ->.
    apply create_model_Ok in H
      as (p0 & enc0 & enc & w_in & w_pool & w_drop & w_fc & w_drop1 & w_out & H).
    cbn zeta in H. destruct H as (_ & -> & Hh & _).
    pose proof (graph_holds (w_heap w) L N (set_adapter_size None p0)
                  enc w_in w_pool w_drop w_fc w_drop1 w_out) as G.
    rewrite <- Hh in G.
    apply holds_graph_model in G as (_ & _ & _ & _ & Ge & Gb & _).
    by exists (length (w_heap w)), (set_adapter_size None p0).
Qed.

(** C4: in every run of [create_model], (1) if the configuration cannot
    be read, parsed and mapped, the run ends with the error of that step,
    has created no object and has made no call to the weight loader;
    (2) a call to the weight loader is preceded by the reading and the
    parsing of the configuration, which have succeeded. *)
Theorem config_before_weights cls L N w r w' :
  create_model cls L N w = (r, w') →
  (∀ e, read_config (w_fs w) (bert_config cls) = inl e →
     r = Raise e ∧ w_heap w' = w_heap w ∧
     ∀ bert ckpt, load_stock_weights_call bert ckpt ∉ calls_since w w') ∧
  (∀ i bert ckpt,
     calls_since w w' !! i = Some (load_stock_weights_call bert ckpt) →
     ∃ json p0,
       GFile_read (w_fs w) (bert_config cls) = inr json ∧
       read_config (w_fs w) (bert_config cls) = inr p0 ∧
       calls_since w w' !! 0%nat = Some (GFile_read_call (bert_config cls)) ∧
       calls_since w w' !! 1%nat = Some (from_json_string_call json) ∧
       (1 < i)%nat).
Proof.
  intros H. apply create_model_inv in H as (_ & _ & _ & _ & H). split.
  - intros e He. rewrite He in H. destruct H as (-> & -> & evs & Htr & Hall).
    split_and!; [done|done|]. intros bert ckpt Hin.
    rewrite (calls_since_app _ _ _ Htr) in Hin.
    by apply (config_file_calls_only _ _ Hall) in Hin.
  - intros i bert ckpt Hi. destruct (read_config _ _) as [e|p0].
    + destruct H as (_ & _ & evs & Htr & Hall).
      rewrite (calls_since_app _ _ _ Htr) in Hi.
      apply list_elem_of_lookup_2 in Hi.
      by apply (config_file_calls_only _ _ Hall) in Hi.
    + destruct H as (json & post & Hread & Htr & _).
      rewrite (calls_since_app _ _ _ Htr) in *.
      exists json, p0. split_and!; [done|done|done|done|].
      destruct i as [|[|i]]; [done|done|lia].
Qed.

End Configuration.

Lemma adapter_size_forced_witness :
  let F := Mock.framework true in
  let w := Mock.process true Mock.environ Mock.disk in
  let w' := (@create_model F Mock.cls 8 5 w).2 in
  read_config (w_fs w) (bert_config Mock.cls) = inr (Mock.base_params (Some 64)) ∧
  (∀ p name, layer_new_call (BertModelLayer p name) ∈ calls_since w w' →
     adapter_size p = None ∧
     ∃ p0, read_config (w_fs w) (bert_config Mock.cls) = inr p0 ∧
           p = set_adapter_size None p0) ∧
  (∀ model, Ok 7%nat = Ok model →
     ∃ bert p, model_encoder (w_heap w') model = Some bert ∧
               layer_config_of (w_heap w') bert = Some (BertModelLayer p "bert") ∧
               adapter_size p = None).
Proof.
  intros F w w'. split; [vm_compute; reflexivity|].
  apply (@adapter_size_forced F Mock.cls 8 5 w (Ok 7%nat) w').
  apply pair_eq; [vm_compute; reflexivity | reflexivity].
Defined.

Lemma config_before_weights_witness :
  let F := Mock.framework true in
  let w := Mock.process true Mock.environ (delete "/tmp/enc/bert_config.json" Mock.disk) in
  let r := (@create_model F Mock.cls 8 5 w).1 in
  let w' := (@create_model F Mock.cls 8 5 w).2 in
  r = Raise (Exn "NotFoundError" "/tmp/enc/bert_config.json") ∧
  w_heap w' = [] ∧
  ∀ bert ckpt, load_stock_weights_call bert ckpt ∉ calls_since w w'.
Proof.
  intros F w r w'.
  apply (proj1 (@config_before_weights F Mock.cls 8 5 w r w'
                  (pair_eq _ _ _ eq_refl eq_refl))).
  vm_compute. reflexivity.
Defined.

(** ** What loading the weights changes (C5) *)

Section WeightLoading.
Context {F : Framework}.

(** [load_stock_weights] writes to the object it is given and to no
    other, and creates none. *)
Lemma load_stock_weights_frame bert ckpt w r w' :
  load_stock_weights bert ckpt w = (r, w') →
  length (w_heap w') = length (w_heap w) ∧
  ∀ l, l ≠ bert → w_heap w' !! l = w_heap w !! l.
Proof.
  unfold load_stock_weights, bind at 1, log, modify.
  unfold bind at 1, deref. cbn [w_heap set_trace].
  destruct (w_heap w !! bert) as [[[| p name | | |] [ws|] | |]|] eqn:Hb;
    unfold raise; try by intros [= <- <-].
  unfold bind, get, lift, store, modify, raise, ret.
  cbn [w_fs w_stdout set_trace set_stdout w_heap].
  destruct (checkpoint_weights _ _ _ _); intros [= <- <-]; [done|].
  cbn [w_heap set_heap]. split; [apply length_insert|].
  intros l Hl. by apply list_lookup_insert_ne.
Qed.

Lemma world_eq (w1 w2 : world) :
  w_environ w1 = w_environ w2 → w_fs w1 = w_fs w2 → w_heap w1 = w_heap w2 →
  w_rng w1 = w_rng w2 → w_stdout w1 = w_stdout w2 → w_trace w1 = w_trace w2 →
  w1 = w2.
Proof. destruct w1, w2. cbn. by intros -> -> -> -> -> ->. Qed.

(** C5: a run of [create_model] that returns a model has gone through a
    state [w_built] in which the graph was assembled and built (its last
    call is [Model.build]) and from which one call, the weight loader on
    the encoder of the model, led to the final state.  In [w_built] every
    layer of the model holds exactly the parameters that the initializers
    drew for it in this run, one layer after the other from the generator
    state at the start.  In the final state the layers hold the same
    values, except the encoder, which holds what the checkpoint gives for
    its initial ones: pooling, dropouts and the two dense layers are as
    initialized.  No other object differs between the two states and none
    is added; the encoder keeps its configuration; file system, generator
    and environment are the same; the standard output has the lines that
    the loader printed, and nothing else, added. *)
Theorem weight_loading_frame cls L N w model w' :
  create_model cls L N w = (Ok model, w') →
  ∃ w_built bert layers p fresh enc0 enc,
    load_stock_weights bert (bert_model cls) w_built = (Ok tt, w') ∧
    (∃ before, calls_since w w_built = before ++ [Model_build_call model [None; Some L]]) ∧
    calls_since w_built w' = [load_stock_weights_call bert (bert_model cls)] ∧
    model_layers (w_heap w_built) model = Some layers ∧
    model_layers (w_heap w') model = Some layers ∧
    model_layer_configs (w_heap w') model = Some (build_order L N p).*1 ∧
    model_encoder (w_heap w') model = Some bert ∧
    layers !! 1%nat = Some bert ∧
    fresh = draws (build_order L N p) (w_rng w) ∧
    layer_weights (w_heap w_built) <$> layers = Some <$> fresh ∧
    fresh !! 1%nat = Some enc0 ∧
    checkpoint_weights (w_fs w) (bert_model cls) p enc0 = inr enc ∧
    layer_weights (w_heap w') <$> layers = Some <$> <[1%nat := enc]> fresh ∧
    (∀ l, l ≠ bert → w_heap w' !! l = w_heap w_built !! l) ∧
    length (w_heap w') = length (w_heap w_built) ∧
    layer_config_of (w_heap w') bert = layer_config_of (w_heap w_built) bert ∧
    w_fs w' = w_fs w_built ∧ w_rng w' = w_rng w_built ∧
    w_environ w' = w_environ w_built ∧
    w_stdout w_built = w_stdout w ∧
    w_stdout w' = w_stdout w_built ++ loader_output (w_fs w) (bert_model cls) p enc0.
Proof.
  intros H.
  pose proof (create_model_inv _ _ _ _ _ _ H) as (_ & _ & _ & _ & Hinv).
  apply create_model_Ok in H
    as (p0 & enc0 & enc & w_in & w_pool & w_drop & w_fc & w_drop1 & w_out & H).
  cbn zeta in H.
  destruct H as (Hcfg & -> & Hh & _ & Hck & _ & _ & _ & _ & _ & _ & Hdraw & Hout & Hfs & _).
  rewrite Hcfg in Hinv. destruct Hinv as (json & post & _ & Htr & _ & Hpost & _).
  specialize (Hpost _ eq_refl). subst post.
  set (p := set_adapter_size None p0) in *. set (n := length (w_heap w)) in *.
  set (hb := w_heap w ++ graph L N p n enc0 w_in w_pool w_drop w_fc w_drop1 w_out).
  set (front := config_calls cls json p ++ removelast (wiring cls L N p n)).
  set (w_built := World (w_environ w') (w_fs w') hb (w_rng w') (w_stdout w)
                    (w_trace w ++ front)).
  pose proof (graph_holds (w_heap w) L N p enc0 w_in w_pool w_drop w_fc w_drop1 w_out) as Gb.
  pose proof (graph_holds (w_heap w) L N p enc w_in w_pool w_drop w_fc w_drop1 w_out) as G.
  fold n hb in Gb. fold n in G. rewrite <- Hh in G.
  pose proof (holds_graph_lookups _ _ _ _ _ _ _ _ _ _ _ _ G)
    as (G0 & G1 & G2 & G3 & G4 & G5 & G6 & _).
  pose proof (holds_graph_lookups _ _ _ _ _ _ _ _ _ _ _ _ Gb)
    as (B0 & B1 & B2 & B3 & B4 & B5 & B6 & _).
  pose proof (holds_graph_model _ _ _ _ _ _ _ _ _ _ _ _ G) as (Gl & Gcs & _ & _ & Ge & Gc & Gw).
  pose proof (holds_graph_model _ _ _ _ _ _ _ _ _ _ _ _ Gb) as (Gbl & _ & _ & _ & _ & Gbc & Gbw).
  assert (load_stock_weights n (bert_model cls) w_built = (Ok tt, w')) as Hload.
  { erewrite load_stock_weights_run by exact B0.
    cbn zeta. cbn [w_fs w_built]. rewrite Hfs, Hck. f_equal.
    apply world_eq; unfold logged; cbn [w_environ w_fs w_heap w_rng w_stdout w_trace
                                           set_heap set_trace set_stdout w_built]; try done.
    - rewrite Hh. unfold hb, n. by rewrite insert_seg0.
    - rewrite Htr. unfold front. by rewrite <- !app_assoc. }
  destruct (load_stock_weights_frame _ _ _ _ _ Hload) as (Hlen & Hframe).
  exists w_built, n, [n + 1; n; n + 2; n + 3; n + 4; n + 5; n + 6]%nat, p,
    (draws (build_order L N p) (w_rng w)), enc0, enc.
  rewrite <- Hdraw.
  split_and!; try done.
  - exists (config_calls cls json p ++ removelast (removelast (wiring cls L N p n))).
    unfold calls_since. cbn [w_trace w_built]. rewrite drop_app_length.
    unfold front. by rewrite <- app_assoc.
  - unfold calls_since. cbn [w_trace w_built]. rewrite Htr.
    replace (w_trace w ++ config_calls cls json p ++ wiring cls L N p n)
      with ((w_trace w ++ front) ++ [load_stock_weights_call n (bert_model cls)])
      by (unfold front; by rewrite <- !app_assoc).
    apply drop_app_length.
  - change (w_heap w_built) with hb. unfold layer_weights. cbn [fmap list_fmap].
    by rewrite B0, B1, B2, B3, B4, B5, B6.
  - unfold layer_weights. cbn [fmap list_fmap insert list_insert].
    by rewrite G0, G1, G2, G3, G4, G5, G6.
  - change (w_heap w_built) with hb. by rewrite Gc, Gbc.
Qed.

End WeightLoading.

Lemma weight_loading_frame_witness :
  let F := Mock.framework true in
  let w := Mock.process true Mock.environ Mock.disk in
  let w' := (@create_model F Mock.cls 8 5 w).2 in
  ∃ w_built bert layers p fresh enc0 enc,
    load_stock_weights bert (bert_model Mock.cls) w_built = (Ok tt, w') ∧
    (∃ before, calls_since w w_built = before ++ [Model_build_call 7%nat [None; Some 8]]) ∧
    calls_since w_built w' = [load_stock_weights_call bert (bert_model Mock.cls)] ∧
    model_layers (w_heap w_built) 7%nat = Some layers ∧
    model_layers (w_heap w') 7%nat = Some layers ∧
    model_layer_configs (w_heap w') 7%nat = Some (build_order 8 5 p).*1 ∧
    model_encoder (w_heap w') 7%nat = Some bert ∧
    layers !! 1%nat = Some bert ∧
    fresh = draws (build_order 8 5 p) (w_rng w) ∧
    layer_weights (w_heap w_built) <$> layers = Some <$> fresh ∧
    fresh !! 1%nat = Some enc0 ∧
    checkpoint_weights (w_fs w) (bert_model Mock.cls) p enc0 = inr enc ∧
    layer_weights (w_heap w') <$> layers = Some <$> <[1%nat := enc]> fresh ∧
    (∀ l, l ≠ bert → w_heap w' !! l = w_heap w_built !! l) ∧
    length (w_heap w') = length (w_heap w_built) ∧
    layer_config_of (w_heap w') bert = layer_config_of (w_heap w_built) bert ∧
    w_fs w' = w_fs w_built ∧ w_rng w' = w_rng w_built ∧
    w_environ w' = w_environ w_built ∧
    w_stdout w_built = w_stdout w ∧
    w_stdout w' = w_stdout w_built ++ loader_output (w_fs w) (bert_model Mock.cls) p enc0.
Proof.
  intros F w w'.
  apply (@weight_loading_frame F Mock.cls 8 5 w 7%nat w').
  apply pair_eq; [vm_compute; reflexivity | reflexivity].
Defined.

(** In the sample run the drawn values and the loaded ones are apart:
    the encoder ends with the values of the checkpoint, the two dense
    layers with the values drawn after the encoder's. *)
Example weight_loading_sample :
  let F := Mock.framework true in
  let w := Mock.process true Mock.environ Mock.disk in
  let w' := (@create_model F Mock.cls 8 5 w).2 in
  draws (build_order 8 5 (Mock.base_params None)) (w_rng w)
    = [[]; [0; 1; 2; 3]; []; []; [4; 5]; []; [6; 7]] ∧
  layer_weights (w_heap w') <$> [1; 0; 2; 3; 4; 5; 6]%nat
    = Some <$> [[]; [65; 66; 67; 68]; []; []; [4; 5]; []; [6; 7]].
Proof. vm_compute. done. Qed.

(** ** Two calls of [create_model] (C6) *)

(** C6 as stated does not hold: a checkpoint that the loader accepts
    need not have a value for every parameter of the encoder, and the
    loader leaves a parameter without a value as it was initialized.  On the sample disk with a checkpoint that
    has two of the four values, two calls with the same arguments both
    return a model, and the encoders of the two models do not hold the
    same parameter values. *)
Lemma create_model_twice_partial_checkpoint :
  let F := Mock.framework true in
  let w := Mock.process true Mock.environ
             (<["/tmp/enc/bert_model.ckpt" := Mock.File "AB"]> Mock.disk) in
  let run1 := @create_model F Mock.cls 8 5 w in
  let run2 := @create_model F Mock.cls 8 5 run1.2 in
  ∃ model1 model2 bert1 bert2,
    run1.1 = Ok model1 ∧ run2.1 = Ok model2 ∧
    w_fs run1.2 = w_fs w ∧
    model_encoder (w_heap run2.2) model1 = Some bert1 ∧
    model_encoder (w_heap run2.2) model2 = Some bert2 ∧
    ¬ ∃ enc, layer_weights (w_heap run2.2) bert1 = Some enc ∧
             layer_weights (w_heap run2.2) bert2 = Some enc.
Proof.
  intros F w run1 run2. exists 7%nat, 15%nat, 0%nat, 8%nat.
  split_and!; try (vm_compute; reflexivity).
  intros (enc & H1 & H2).
  assert (layer_weights (w_heap run2.2) 0%nat = Some [65; 66; 2; 3]) as E1
    by (vm_compute; reflexivity).
  assert (layer_weights (w_heap run2.2) 8%nat = Some [65; 66; 10; 11]) as E2
    by (vm_compute; reflexivity).
  rewrite E1 in H1. rewrite E2 in H2. clear - H1 H2. congruence.
Qed.

Section TwoCalls.
Context {F : Framework}.

Lemma graph_length L N p n enc w_in w_pool w_drop w_fc w_drop1 w_out :
  length (graph L N p n enc w_in w_pool w_drop w_fc w_drop1 w_out) = 8%nat.
Proof. reflexivity. Qed.

(** C6, amended: with a configuration file and a checkpoint that do not
    change, the checkpoint having a value for every parameter of the
    configured encoder, two calls of [create_model] with the same arguments
    return two models whose encoders hold the same parameter values and
    have the same architecture, and that share no object: no object of the
    first model is an object of the second, and building the second left
    every object of the first as it was. *)
Theorem create_model_twice cls L N w model1 w1 model2 w2 :
  (∀ p0, read_config (w_fs w) (bert_config cls) = inr p0 →
         checkpoint_covers_encoder (w_fs w) (bert_model cls)
           (set_adapter_size None p0) [None; Some L]) →
  create_model cls L N w = (Ok model1, w1) →
  create_model cls L N w1 = (Ok model2, w2) →
  (∃ bert1 bert2 enc,
     model_encoder (w_heap w2) model1 = Some bert1 ∧
     model_encoder (w_heap w2) model2 = Some bert2 ∧
     layer_weights (w_heap w2) bert1 = Some enc ∧
     layer_weights (w_heap w2) bert2 = Some enc) ∧
  (∃ configs, model_layer_configs (w_heap w2) model1 = Some configs ∧
              model_layer_configs (w_heap w2) model2 = Some configs) ∧
  (∀ l, l ∈ model_objects (w_heap w2) model1 → l ∉ model_objects (w_heap w2) model2) ∧
  (∀ l, l ∈ model_objects (w_heap w1) model1 → w_heap w2 !! l = w_heap w1 !! l) ∧
  w_fs w1 = w_fs w ∧ w_fs w2 = w_fs w.
Proof.
  intros Hcov H1 H2.
  pose proof (create_model_inv _ _ _ _ _ _ H1) as (Hfs & _).
  pose proof (create_model_inv _ _ _ _ _ _ H2) as (Hfs2 & _).
  apply create_model_Ok in H1
    as (p0 & e0 & e & a1 & a2 & a3 & a4 & a5 & a6 & H1).
  apply create_model_Ok in H2
    as (q0 & f0 & f & b1 & b2 & b3 & b4 & b5 & b6 & H2).
  cbn zeta in H1, H2.
  destruct H1 as (Hcfg1 & -> & Hh1 & [r1 ->] & Hck1 & _).
  destruct H2 as (Hcfg2 & -> & Hh2 & [r2 ->] & Hck2 & _).
  rewrite Hfs in Hcfg2, Hck2. rewrite Hcfg1 in Hcfg2. injection Hcfg2 as <-.
  rewrite (Hcov _ Hcfg1 r2 r1), Hck1 in Hck2. injection Hck2 as <-.
  set (p := set_adapter_size None p0) in *. set (n := length (w_heap w)) in *.
  assert (length (w_heap w1) = (n + 8)%nat) as Hn1
    by (rewrite Hh1, length_app; apply f_equal, graph_length).
  rewrite Hn1 in *.
  pose proof (graph_holds (w_heap w) L N p e a1 a2 a3 a4 a5 a6) as G1.
  fold n in G1. rewrite <- Hh1 in G1.
  pose proof (graph_holds (w_heap w1) L N p e b1 b2 b3 b4 b5 b6) as G2.
  rewrite Hn1, <- Hh2 in G2.
  pose proof (holds_graph_app _ (graph L N p (n + 8) e b1 b2 b3 b4 b5 b6)
                _ _ _ _ _ _ _ _ _ _ _ G1) as G12.
  rewrite <- Hh2 in G12.
  pose proof (holds_graph_model _ _ _ _ _ _ _ _ _ _ _ _ G1) as (L1 & _).
  pose proof (holds_graph_model _ _ _ _ _ _ _ _ _ _ _ _ G12)
    as (L12 & C12 & _ & _ & E12 & _ & W12).
  pose proof (holds_graph_model _ _ _ _ _ _ _ _ _ _ _ _ G2)
    as (L2 & C2 & _ & _ & E2 & _ & W2).
  split_and!.
  - by exists n, (n + 8)%nat, e.
  - eauto.
  - unfold model_objects. rewrite L12, L2. cbn [default]. intros l Hl Hl'.
    repeat (apply elem_of_cons in Hl as [->|Hl];
            [repeat (apply elem_of_cons in Hl' as [Hl'|Hl']; [lia|]);
             by apply elem_of_nil in Hl'|]).
    by apply elem_of_nil in Hl.
  - unfold model_objects. rewrite L1. cbn [default]. intros l Hl.
    rewrite Hh2. apply lookup_app_l. rewrite Hn1.
    repeat (apply elem_of_cons in Hl as [->|Hl]; [lia|]).
    by apply elem_of_nil in Hl.
  - done.
  - by rewrite Hfs2.
Qed.

End TwoCalls.

Lemma Mock_checkpoint_covers p input_shape :
  @checkpoint_covers_encoder (Mock.framework true) Mock.disk "/tmp/enc/bert_model.ckpt"
    p input_shape.
Proof. intros r r'. reflexivity. Qed.

Lemma create_model_twice_witness :
  let F := Mock.framework true in
  let w := Mock.process true Mock.environ Mock.disk in
  let w1 := (@create_model F Mock.cls 8 5 w).2 in
  let w2 := (@create_model F Mock.cls 8 5 w1).2 in
  (∃ bert1 bert2 enc,
     model_encoder (w_heap w2) 7%nat = Some bert1 ∧
     model_encoder (w_heap w2) 15%nat = Some bert2 ∧
     layer_weights (w_heap w2) bert1 = Some enc ∧
     layer_weights (w_heap w2) bert2 = Some enc) ∧
  (∃ configs, model_layer_configs (w_heap w2) 7%nat = Some configs ∧
              model_layer_configs (w_heap w2) 15%nat = Some configs) ∧
  (∀ l, l ∈ model_objects (w_heap w2) 7%nat → l ∉ model_objects (w_heap w2) 15%nat) ∧
  (∀ l, l ∈ model_objects (w_heap w1) 7%nat → w_heap w2 !! l = w_heap w1 !! l) ∧
  w_fs w1 = w_fs w ∧ w_fs w2 = w_fs w.
Proof.
  intros F w w1 w2.
  apply (@create_model_twice F Mock.cls 8 5 w 7%nat w1 15%nat w2).
  - intros p0 _. apply Mock_checkpoint_covers.
  - apply pair_eq; [vm_compute; reflexivity | reflexivity].
  - apply pair_eq; [vm_compute; reflexivity | reflexivity].
Defined.

(** ** The tokenizer (C8) *)

Section Tokenizer.
Context {F : Framework}.

Lemma get_tokenizer_run cls w :
  get_tokenizer cls w =
  let vocab_file := os_path_join (bert_dir cls) "vocab.txt" in
  let w1 := logged (FullTokenizer_new_call vocab_file) w in
  match GFile_read (w_fs w) vocab_file with
  | inl e => (Raise e, w1)
  | inr text =>
      match vocab_of_text text with
      | inl e => (Raise e, w1)
      | inr v => (Ok (length (w_heap w)),
                  set_heap (w_heap w ++ [TokenizerObj vocab_file v]) w1)
      end
  end.
Proof.
  unfold get_tokenizer, FullTokenizer, bind, log, modify, get, lift, alloc, ret, raise.
  cbn [w_fs w_heap set_trace].
  destruct (GFile_read _ _) as [e|text]; [done|].
  by destruct (vocab_of_text text).
Qed.

(** C8: a call of [get_tokenizer] that returns a tokenizer has read the
    text of [vocab.txt] in the encoder directory and built the vocabulary
    from that text.  (1) The call can be repeated: the second call reads
    the file again and creates a second object, nothing being kept between
    the calls; both tokenizers are bound to that file and map every text to
    the same ids.  (2) What a tokenizer does is a function of the text of
    the file: in any state of the process in which that file has the same
    text, whatever else differs (other files, environment, objects,
    generator), [get_tokenizer] succeeds, with a new object, and its
    tokenizer maps every text to the same ids as the first. *)
Theorem get_tokenizer_fresh_and_deterministic cls w t1 w1 :
  get_tokenizer cls w = (Ok t1, w1) →
  let vocab_file := os_path_join (bert_dir cls) "vocab.txt" in
  ∃ text v,
    GFile_read (w_fs w) vocab_file = inr text ∧
    vocab_of_text text = inr v ∧
    (∃ t2 w2,
       get_tokenizer cls w1 = (Ok t2, w2) ∧
       t1 ≠ t2 ∧
       w_heap w2 !! t1 = Some (TokenizerObj vocab_file v) ∧
       w_heap w2 !! t2 = Some (TokenizerObj vocab_file v) ∧
       calls_since w w2 =
         [FullTokenizer_new_call vocab_file; FullTokenizer_new_call vocab_file] ∧
       ∀ s, tokenizer_ids (w_heap w2) t1 s = Some (token_ids v s) ∧
            tokenizer_ids (w_heap w2) t2 s = Some (token_ids v s)) ∧
    (∀ u, GFile_read (w_fs u) vocab_file = inr text →
       ∃ t u',
         get_tokenizer cls u = (Ok t, u') ∧
         w_heap u !! t = None ∧
         w_heap u' !! t = Some (TokenizerObj vocab_file v) ∧
         ∀ s, tokenizer_ids (w_heap u') t s = Some (token_ids v s) ∧
              tokenizer_ids (w_heap u') t s = tokenizer_ids (w_heap w1) t1 s).
Proof.
  intros H vocab_file. rewrite get_tokenizer_run in H. cbn zeta in H. fold vocab_file in H.
  destruct (GFile_read (w_fs w) vocab_file) as [e|text] eqn:Htext; [done|].
  destruct (vocab_of_text text) as [e|v] eqn:Hv; [done|].
  injection H as <- <-. exists text, v.
  assert (∀ (h : list obj) o, (h ++ [o]) !! length h = Some o) as Hlast.
  { intros. by rewrite lookup_seg0. }
  split_and!; [done|done| |].
  - eexists _, _. rewrite get_tokenizer_run. cbn zeta. fold vocab_file.
    unfold logged. cbn [w_fs w_heap w_trace set_heap set_trace]. rewrite Htext, Hv.
    split; [reflexivity|].
    unfold calls_since. cbn [w_heap w_trace set_heap set_trace].
    assert (((w_heap w ++ [TokenizerObj vocab_file v]) ++ [TokenizerObj vocab_file v])
              !! length (w_heap w) = Some (TokenizerObj vocab_file v)) as E1.
    { apply lookup_app_l_Some, Hlast. }
    split_and!.
    + rewrite length_app. cbn. lia.
    + apply E1.
    + apply Hlast.
    + by rewrite <- app_assoc, drop_app_length.
    + intros s. unfold tokenizer_ids. by rewrite E1, Hlast.
  - intros u Hu. eexists _, _. rewrite get_tokenizer_run. cbn zeta. fold vocab_file.
    rewrite Hu, Hv. split; [reflexivity|].
    unfold logged. cbn [w_heap set_heap set_trace].
    split_and!.
    + by apply lookup_ge_None_2.
    + apply Hlast.
    + intros s. unfold tokenizer_ids. by rewrite !Hlast.
Qed.

End Tokenizer.

Lemma get_tokenizer_fresh_and_deterministic_witness :
  let F := Mock.framework true in
  let w := Mock.process true Mock.environ Mock.disk in
  let w1 := (@get_tokenizer F Mock.cls w).2 in
  let vocab_file := os_path_join (bert_dir Mock.cls) "vocab.txt" in
  ∃ text v,
    GFile_read (w_fs w) vocab_file = inr text ∧
    vocab_of_text text = inr v ∧
    (∃ t2 w2,
       get_tokenizer Mock.cls w1 = (Ok t2, w2) ∧
       0%nat ≠ t2 ∧
       w_heap w2 !! 0%nat = Some (TokenizerObj vocab_file v) ∧
       w_heap w2 !! t2 = Some (TokenizerObj vocab_file v) ∧
       calls_since w w2 =
         [FullTokenizer_new_call vocab_file; FullTokenizer_new_call vocab_file] ∧
       ∀ s, tokenizer_ids (w_heap w2) 0%nat s = Some (token_ids v s) ∧
            tokenizer_ids (w_heap w2) t2 s = Some (token_ids v s)) ∧
    (∀ u, GFile_read (w_fs u) vocab_file = inr text →
       ∃ t u',
         get_tokenizer Mock.cls u = (Ok t, u') ∧
         w_heap u !! t = None ∧
         w_heap u' !! t = Some (TokenizerObj vocab_file v) ∧
         ∀ s, tokenizer_ids (w_heap u') t s = Some (token_ids v s) ∧
              tokenizer_ids (w_heap u') t s = tokenizer_ids (w_heap w1) 0%nat s).
Proof.
  intros F w w1 vocab_file.
  apply (@get_tokenizer_fresh_and_deterministic F Mock.cls w 0%nat w1).
  apply pair_eq; [vm_compute; reflexivity | reflexivity].
Defined.

(** The same vocabulary in another process: a disk that holds nothing
    but the vocabulary file, another environment, a heap with a model in
    it.  The ids are those of the first tokenizer. *)
Example get_tokenizer_other_process :
  let F := Mock.framework true in
  let w := Mock.process true Mock.environ Mock.disk in
  let u := (@create_model F Mock.cls 8 5
              (Mock.process true ∅
                 (<["/tmp/enc/vocab.txt" := Mock.File "abcdefgh"]> Mock.disk))).2 in
  let u0 := set_fs (<["/tmp/enc/vocab.txt" := Mock.File "abcdefgh"]> ∅) u in
  tokenizer_ids (w_heap (@get_tokenizer F Mock.cls w).2) 0%nat "bad cafe"
    = Some [1; 0; 3; -1; 2; 0; 5; 4] ∧
  (@get_tokenizer F Mock.cls u0).1 = Ok 8%nat ∧
  tokenizer_ids (w_heap (@get_tokenizer F Mock.cls u0).2) 8%nat "bad cafe"
    = Some [1; 0; 3; -1; 2; 0; 5; 4].
Proof. vm_compute. done. Qed.

(** ** The summary (C9) *)

Section Summary.
Context {F : Framework}.

(** C9: printing the summary of a model is the model's own summary
    routine and nothing else: the two have the same result and leave the
    same state, so an exception of the routine is the exception of the
    helper, unchanged, and the helper raises none that the routine does
    not raise. *)
Theorem ModelSummary_print_delegates model w :
  ModelSummary_print model w = Model_summary model w ∧
  (∀ e w', Model_summary model w = (Raise e, w') →
           ModelSummary_print model w = (Raise e, w')) ∧
  (∀ e w', ModelSummary_print model w = (Raise e, w') →
           Model_summary model w = (Raise e, w')) ∧
  (∀ w', ModelSummary_print model w = (Ok tt, w') ↔ Model_summary model w = (Ok tt, w')).
Proof. by split_and!. Qed.

End Summary.

Lemma ModelSummary_print_delegates_witness :
  let F := Mock.framework true in
  let unbuilt : @world F :=
    @World F ∅ ∅
      [ LayerObj (Dense 3 "relu") None;
        ModelObj (KTensor [None; Some 4] []) (KTensor [None; Some 3] [0%nat]) [0%nat] ]
      0%nat [] [] in
  @ModelSummary_print F 1%nat unbuilt =
    (Raise (Exn "ValueError" "This model has not yet been built"),
     logged (Model_summary_call 1%nat) unbuilt).
Proof.
  intros F unbuilt.
  apply (proj1 (proj2 (@ModelSummary_print_delegates F 1%nat unbuilt))).
  vm_compute. reflexivity.
Defined.

(** ** No validation of the arguments (C10) *)

Section NoValidation.
Context {F : Framework}.

Lemma create_model_error cls L N w e w' :
  create_model cls L N w = (Raise e, w') →
  read_config (w_fs w) (bert_config cls) = inl e ∨
  (∃ history c, c ∈ calls_since w w' ∧ keras_rejects history c = Some e) ∨
  (∃ p0 enc0, read_config (w_fs w) (bert_config cls) = inr p0 ∧
              checkpoint_weights (w_fs w) (bert_model cls)
                (set_adapter_size None p0) enc0 = inl e).
Proof.
  intros H. apply create_model_inv in H as (_ & _ & _ & _ & H).
  destruct (read_config _ _) as [e0|p0].
  - destruct H as ([= ->] & _). by left.
  - destruct H as (json & post & _ & Htr & _ & _ & Herr).
    right. destruct (Herr _ eq_refl) as [(history & c & Hc & Hrej)|(enc0 & _ & Hck)].
    + left. exists history, c. by rewrite (calls_since_app _ _ _ Htr).
    + right. by exists p0, enc0.
Qed.

Lemma create_model_calls cls L N w r w' c :
  create_model cls L N w = (r, w') → c ∈ calls_since w w' →
  config_file_call c = true ∨
  ∃ p n, c = layer_new_call (BertModelLayer p "bert") ∨ c ∈ wiring cls L N p n.
Proof.
  intros H Hc. apply create_model_inv in H as (_ & _ & _ & _ & H).
  destruct (read_config _ _) as [e0|p0].
  - destruct H as (_ & _ & evs & Htr & Hall).
    rewrite (calls_since_app _ _ _ Htr) in Hc.
    left. by apply (config_file_calls_only _ _ Hall).
  - destruct H as (json & post & _ & Htr & Hpre & _).
    rewrite (calls_since_app _ _ _ Htr) in Hc.
    apply elem_of_app in Hc as [Hc|Hc].
    + unfold config_calls in Hc.
      repeat (apply elem_of_cons in Hc as [->|Hc];
              [first [by left | right; eexists _, 0%nat; by left]|]).
      by apply elem_of_nil in Hc.
    + right. eexists _, _. right. by apply (elem_of_prefix _ _ _ Hc Hpre).
Qed.

(** C10: [create_model] takes any two integers.  (1) An exception of a
    run is the one that an external collaborator answered: the reading of
    the configuration, a call that Keras rejected, or the weight loader.
    (2) In every run the input placeholder is requested with the shape
    [(max_sequence_length,)] and the softmax layer with
    [number_of_intents] units, as given.  (3) With a readable
    configuration, a Keras that rejects nothing and a loader that accepts
    the checkpoint, the run returns a model for every pair of integers,
    zero and negative ones included. *)
Theorem create_model_does_not_validate cls (L N : Z) w :
  (∀ e w', create_model cls L N w = (Raise e, w') →
     read_config (w_fs w) (bert_config cls) = inl e ∨
     (∃ history c, c ∈ calls_since w w' ∧ keras_rejects history c = Some e) ∨
     (∃ p0 enc0, read_config (w_fs w) (bert_config cls) = inr p0 ∧
                 checkpoint_weights (w_fs w) (bert_model cls)
                   (set_adapter_size None p0) enc0 = inl e)) ∧
  (∀ r w', create_model cls L N w = (r, w') →
     (∀ shape dtype name,
        layer_new_call (InputLayer shape dtype name) ∈ calls_since w w' →
        shape = [L]) ∧
     (∀ units, layer_new_call (Dense units "softmax") ∈ calls_since w w' →
               units = N)) ∧
  (∀ p0, read_config (w_fs w) (bert_config cls) = inr p0 →
     (∀ history c, keras_rejects history c = None) →
     (∀ enc0, ∃ enc, checkpoint_weights (w_fs w) (bert_model cls)
                       (set_adapter_size None p0) enc0 = inr enc) →
     ∃ model w',
       create_model cls L N w = (Ok model, w') ∧
       layer_new_call (InputLayer [L] "int32" "input_ids") ∈ calls_since w w' ∧
       layer_new_call (Dense N "softmax") ∈ calls_since w w' ∧
       model_input_shape (w_heap w') model = Some [None; Some L] ∧
       model_output_shape (w_heap w') model = Some [None; Some N]).
Proof.
  split_and!.
  - intros e w'. apply create_model_error.
  - intros r w' H. split.
    + intros shape dtype name Hc.
      destruct (create_model_calls _ _ _ _ _ _ _ H Hc) as [Hcf|(p & n & [Hb|Hw])];
        [done|done|].
      unfold wiring in Hw.
      repeat (apply elem_of_cons in Hw as [Hw|Hw]; [try discriminate Hw|]).
      * by injection Hw as ->.
      * by apply elem_of_nil in Hw.
    + intros units Hc.
      destruct (create_model_calls _ _ _ _ _ _ _ H Hc) as [Hcf|(p & n & [Hb|Hw])];
        [done|done|].
      unfold wiring in Hw.
      repeat (apply elem_of_cons in Hw as [Hw|Hw]; [try discriminate Hw|]).
      * by injection Hw as ->.
      * by apply elem_of_nil in Hw.
  - intros p0 Hcfg Hperm Hload.
    destruct (create_model cls L N w) as [[model|e] w'] eqn:H.
    + exists model, w'. split; [done|].
      pose proof (create_model_inv _ _ _ _ _ _ H) as (_ & _ & _ & _ & Hinv).
      rewrite Hcfg in Hinv. destruct Hinv as (json & post & _ & Htr & _ & Hpost & _).
      rewrite (Hpost _ eq_refl) in Htr. rewrite (calls_since_app _ _ _ Htr).
      apply create_model_Ok in H
        as (q0 & enc0 & enc & w_in & w_pool & w_drop & w_fc & w_drop1 & w_out & H).
      cbn zeta in H. destruct H as (_ & -> & Hh & _).
      pose proof (graph_holds (w_heap w) L N (set_adapter_size None q0)
                    enc w_in w_pool w_drop w_fc w_drop1 w_out) as G.
      rewrite <- Hh in G.
      apply holds_graph_model in G as (_ & _ & Gi & Go & _).
      split_and!; [| |done|done].
      * apply elem_of_app. right. unfold wiring. by repeat constructor.
      * apply elem_of_app. right. unfold wiring. by repeat constructor.
    + exfalso.
      apply create_model_error in H as [H|[(history & c & _ & H)|(q0 & enc0 & Hq & H)]].
      * by rewrite Hcfg in H.
      * by rewrite Hperm in H.
      * rewrite Hcfg in Hq. injection Hq as <-.
        destruct (Hload enc0) as [enc Henc]. by rewrite Henc in H.
Qed.

End NoValidation.

Lemma create_model_does_not_validate_witness :
  let F := Mock.framework false in
  let w := Mock.process false Mock.environ Mock.disk in
  ∃ model w',
    @create_model F Mock.cls (-3) 0 w = (Ok model, w') ∧
    layer_new_call (InputLayer [-3] "int32" "input_ids") ∈ calls_since w w' ∧
    layer_new_call (Dense 0 "softmax") ∈ calls_since w w' ∧
    model_input_shape (w_heap w') model = Some [None; Some (-3)] ∧
    model_output_shape (w_heap w') model = Some [None; Some 0].
Proof.
  intros F w.
  apply (proj2 (proj2 (@create_model_does_not_validate F Mock.cls (-3) 0 w))
           (Mock.base_params (Some 64))).
  - vm_compute. reflexivity.
  - intros history c. destruct c as [| | | | | cfg | cfg s | | | | |]; try reflexivity.
    + by destruct cfg.
    + destruct cfg as [|p name| | |]; try reflexivity.
      by destruct s as [|? [|[?|] [|? ?]]].
  - intros enc0. eexists. reflexivity.
Defined.

(** * Further properties *)

(** ** The script of a run *)

Ltac script_pre :=
  let c := fresh "c" in
  let Hc := fresh "Hc" in
  intros c Hc;
  repeat (apply elem_of_cons in Hc as [->|Hc]; [by eauto|]);
  by apply elem_of_nil in Hc.

Section Script.
Context {F : Framework}.

(** Every run of [create_model] reads the configuration file first and
    closes it after the calls of the [with] block; what follows the close
    is a prefix of the wiring.  A run that has called the loader and ends
    with an exception has the whole graph in the heap, the encoder still
    with the parameters of its initializers, and the exception is the
    loader's.  A run that has not called the loader has printed nothing;
    a run that has called it has printed what the loader prints for the
    encoder as its initializers left it, and nothing else. *)
Lemma create_model_script cls L N w r w' :
  create_model cls L N w = (r, w') →
  (∃ pre post p,
     calls_since w w' =
       GFile_read_call (bert_config cls) :: pre ++ GFile_close_call (bert_config cls) :: post ∧
     (∀ c, c ∈ pre →
        (∃ json, c = from_json_string_call json) ∨
        c = map_stock_config_to_params_call ∨
        c = layer_new_call (BertModelLayer p "bert")) ∧
     post `prefix_of` wiring cls L N p (length (w_heap w))) ∧
  (∀ e bert ckpt,
     r = Raise e → load_stock_weights_call bert ckpt ∈ calls_since w w' →
     ∃ p0 enc0 w_in w_pool w_drop w_fc w_drop1 w_out,
       read_config (w_fs w) (bert_config cls) = inr p0 ∧
       w_heap w' = w_heap w ++ graph L N (set_adapter_size None p0) (length (w_heap w))
                                 enc0 w_in w_pool w_drop w_fc w_drop1 w_out ∧
       freshly_initialized (BertModelLayer (set_adapter_size None p0) "bert")
         [None; Some L] enc0 ∧
       checkpoint_weights (w_fs w) (bert_model cls) (set_adapter_size None p0) enc0 = inl e) ∧
  ((∀ bert ckpt, load_stock_weights_call bert ckpt ∉ calls_since w w') →
   w_stdout w' = w_stdout w) ∧
  (∀ bert ckpt,
     load_stock_weights_call bert ckpt ∈ calls_since w w' →
     ∃ p0 enc0,
       read_config (w_fs w) (bert_config cls) = inr p0 ∧
       draws (build_order L N (set_adapter_size None p0)) (w_rng w) !! 1%nat = Some enc0 ∧
       w_stdout w' =
         w_stdout w ++ loader_output (w_fs w) (bert_model cls) (set_adapter_size None p0) enc0).
Proof.
  destruct w as [env fs0 h r0 out tr]. intros H.
  run_create_model H.
  all: unfold calls_since; cbn [w_fs w_heap w_trace w_stdout]; rewrite drop_app_length.
  all: split; [|split; [|split]].
  all: try done.
  all: try (intros bert' ckpt' Hin;
            repeat (apply elem_of_cons in Hin as [Hin|Hin]; [discriminate Hin|]);
            by apply elem_of_nil in Hin).
  all: try (intros Hno; exfalso; eapply Hno; by repeat constructor).
  all: try (intros e' bert' ckpt' Hr Hin;
            first [ discriminate Hr
                  | repeat (apply elem_of_cons in Hin as [Hin|Hin]; [discriminate Hin|]);
                    by apply elem_of_nil in Hin ]).
  all: try (first
    [ exists [], [], (BertParams 0 0 0 0 0 0 None);
      split_and!; [reflexivity | by intros c Hc%elem_of_nil | apply prefix_nil]
    | eexists [_], [], (BertParams 0 0 0 0 0 0 None);
      split_and!; [reflexivity | script_pre | apply prefix_nil]
    | eexists [_; _], [], (BertParams 0 0 0 0 0 0 None);
      split_and!; [reflexivity | script_pre | apply prefix_nil]
    | eexists [_; _; _], _, _;
      split_and!; [reflexivity | script_pre | by eexists] ]).
  all: try (intros bert' ckpt' _; eexists b, _; unfold read_config;
            rewrite Heqs, Heqs0; split_and!; [done|reflexivity|done]).
  intros e' bert' ckpt' [= <-] _.
  eexists b, _, _, _, _, _, _, _. unfold read_config. rewrite Heqs, Heqs0.
  split_and!; try done; by eexists.
Qed.

End Script.

(** ** The class body: one call, nothing checked *)

Section ClassBody.
Context {F : Framework}.

(** In every run, successful or not, the class body makes one external
    call, the creation of the encoder directory with [exist_ok=True]; the
    file system is what that call leaves, and objects, environment,
    generator and output are untouched.  It opens or checks no other file:
    the paths it returns are those of any other successful run in the same
    environment, whatever the file systems contain. *)
Theorem Definition_body_effects base w r w' :
  Definition_body base w = (r, w') →
  calls_since w w' = [os_makedirs_call (resolved_bert_dir base w) true] ∧
  w_fs w' = (os_makedirs (resolved_bert_dir base w) true (w_fs w)).2 ∧
  w_heap w' = w_heap w ∧ w_environ w' = w_environ w ∧
  w_rng w' = w_rng w ∧ w_stdout w' = w_stdout w ∧
  (∀ cls u cls' u',
     r = Ok cls → w_environ u = w_environ w →
     Definition_body base u = (Ok cls', u') → cls' = cls).
Proof.
  rewrite Definition_body_run. cbn zeta. intros H.
  assert (calls_since w w' = [os_makedirs_call (resolved_bert_dir base w) true] ∧
          w_fs w' = (os_makedirs (resolved_bert_dir base w) true (w_fs w)).2 ∧
          w_heap w' = w_heap w ∧ w_environ w' = w_environ w ∧
          w_rng w' = w_rng w ∧ w_stdout w' = w_stdout w) as Hframe.
  { destruct (os_makedirs _ _ _) as [[e|] s]; injection H as <- <-;
      unfold calls_since, logged; cbn [w_trace w_fs w_heap w_environ w_rng w_stdout
                                         set_fs set_trace snd];
      by rewrite drop_app_length. }
  destruct Hframe as (? & ? & ? & ? & ? & ?). split_and!; try done.
  intros cls u cls' u' -> Henv Hu.
  rewrite Definition_body_run in Hu. cbn zeta in Hu.
  unfold resolved_bert_dir in *. rewrite Henv in Hu.
  destruct (os_makedirs _ _ (w_fs w)) as [[e|] s]; [done|].
  destruct (os_makedirs _ _ (w_fs u)) as [[e|] s1]; [done|].
  injection H as <- _. by injection Hu as <- _.
Qed.

End ClassBody.

Lemma Definition_body_effects_witness :
  let F := Mock.framework true in
  let w := Mock.process true Mock.environ ∅ in
  let run := @Definition_body F "/srv/woodgate" w in
  calls_since w run.2 = [os_makedirs_call (resolved_bert_dir "/srv/woodgate" w) true] ∧
  w_fs run.2 = (os_makedirs (resolved_bert_dir "/srv/woodgate" w) true (w_fs w)).2 ∧
  w_heap run.2 = w_heap w ∧ w_environ run.2 = w_environ w ∧
  w_rng run.2 = w_rng w ∧ w_stdout run.2 = w_stdout w ∧
  (∀ cls u cls' u',
     run.1 = Ok cls → w_environ u = w_environ w →
     @Definition_body F "/srv/woodgate" u = (Ok cls', u') → cls' = cls).
Proof.
  intros F w run.
  apply (@Definition_body_effects F "/srv/woodgate" w run.1 run.2).
  apply pair_eq; reflexivity.
Defined.

(** ** The configuration file is read once and closed on every path *)

Section FileScope.
Context {F : Framework}.

Lemma wiring_not_file_call cls L N p n c :
  c ∈ wiring cls L N p n → config_file_call c = false.
Proof.
  unfold wiring. intros H.
  repeat (apply elem_of_cons in H as [->|H]; [done|]).
  by apply elem_of_nil in H.
Qed.

(** In every run of [create_model], whatever its outcome, the first call
    reads the configuration file and a later call closes it; no other call
    of the run reads or closes a file; between the two only the parsing,
    the mapping and the instantiation of the encoder occur, and every call
    of the wiring comes after the close. *)
Theorem config_file_closed cls L N w r w' :
  create_model cls L N w = (r, w') →
  ∃ pre post,
    calls_since w w' =
      GFile_read_call (bert_config cls) :: pre ++ GFile_close_call (bert_config cls) :: post ∧
    (∀ c name, c ∈ pre ++ post → c ≠ GFile_read_call name ∧ c ≠ GFile_close_call name) ∧
    (∀ c, c ∈ pre →
       (∃ json, c = from_json_string_call json) ∨
       c = map_stock_config_to_params_call ∨
       ∃ p, c = layer_new_call (BertModelLayer p "bert")) ∧
    (∀ c, c ∈ post → config_file_call c = false).
Proof.
  intros H. apply create_model_script in H as ((pre & post & p & Hcalls & Hpre & Hpost) & _).
  exists pre, post. split_and!; [done| | |].
  - intros c name [Hc|Hc]%elem_of_app.
    + destruct (Hpre c Hc) as [[json ->]|[->| ->]]; by split.
    + apply (elem_of_prefix _ _ _ Hc), wiring_not_file_call in Hpost.
      split; intros ->; done.
  - intros c Hc. destruct (Hpre c Hc) as [?|[?|?]]; eauto.
  - intros c Hc. by apply (elem_of_prefix _ _ _ Hc), wiring_not_file_call in Hpost.
Qed.

End FileScope.

Lemma config_file_closed_witness :
  let F := Mock.framework true in
  let w := Mock.process true Mock.environ
             (<["/tmp/enc/bert_config.json" := Mock.File "{"]> Mock.disk) in
  let run := @create_model F Mock.cls 8 5 w in
  ∃ pre post,
    calls_since w run.2 =
      GFile_read_call (bert_config Mock.cls) :: pre ++
      GFile_close_call (bert_config Mock.cls) :: post ∧
    (∀ c name, c ∈ pre ++ post → c ≠ GFile_read_call name ∧ c ≠ GFile_close_call name) ∧
    (∀ c, c ∈ pre →
       (∃ json, c = from_json_string_call json) ∨
       c = map_stock_config_to_params_call ∨
       ∃ p, c = layer_new_call (BertModelLayer p "bert")) ∧
    (∀ c, c ∈ post → config_file_call c = false).
Proof.
  intros F w run.
  apply (@config_file_closed F Mock.cls 8 5 w run.1 run.2).
  apply pair_eq; reflexivity.
Defined.

(** ** The loader is called last, and what its failure leaves *)

Section Loader.
Context {F : Framework}.

(** A prefix of the wiring that contains a call of the loader is the
    whole wiring, and that call is the one on the encoder of the run with
    the configured checkpoint. *)
Lemma wiring_loader_last cls L N p n post bert ckpt :
  post `prefix_of` wiring cls L N p n →
  load_stock_weights_call bert ckpt ∈ post →
  post = wiring cls L N p n ∧ bert = n ∧ ckpt = bert_model cls.
Proof.
  intros Hpre Hin. apply list_elem_of_lookup_1 in Hin as [i Hi].
  pose proof (lookup_lt_Some _ _ _ Hi) as Hlen.
  pose proof (prefix_lookup_Some _ _ _ _ Hi Hpre) as Hw.
  unfold wiring in Hw.
  do 14 (destruct i as [|i]; [discriminate Hw|]).
  destruct i as [|i]; [|done].
  injection Hw as -> ->. split; [|done].
  apply prefix_length_eq; [done|]. cbn. lia.
Qed.

(** The loader is called only when everything before it has gone
    through: a run in which it is called has made exactly the calls of the
    [with] block followed by the whole wiring, in this order and with
    these shapes, and the call is on the encoder instantiated by this run
    with the configured checkpoint.  Every run that returns a model is
    such a run. *)
Theorem loader_called_last cls L N w r w' :
  create_model cls L N w = (r, w') →
  (∀ bert ckpt,
     load_stock_weights_call bert ckpt ∈ calls_since w w' →
     bert = length (w_heap w) ∧ ckpt = bert_model cls ∧
     ∃ json p0,
       GFile_read (w_fs w) (bert_config cls) = inr json ∧
       read_config (w_fs w) (bert_config cls) = inr p0 ∧
       calls_since w w' =
         config_calls cls json (set_adapter_size None p0) ++
         wiring cls L N (set_adapter_size None p0) (length (w_heap w))) ∧
  (∀ model, r = Ok model →
     load_stock_weights_call (length (w_heap w)) (bert_model cls) ∈ calls_since w w').
Proof.
  intros H. apply create_model_inv in H as (_ & _ & _ & _ & H). split.
  - intros bert ckpt Hin. destruct (read_config _ _) as [e|p0].
    + destruct H as (_ & _ & evs & Htr & Hall).
      rewrite (calls_since_app _ _ _ Htr) in Hin.
      by apply (config_file_calls_only _ _ Hall) in Hin.
    + destruct H as (json & post & Hread & Htr & Hpre & _).
      rewrite (calls_since_app _ _ _ Htr) in *.
      apply elem_of_app in Hin as [Hin|Hin].
      * unfold config_calls in Hin.
        repeat (apply elem_of_cons in Hin as [Hin|Hin]; [discriminate Hin|]).
        by apply elem_of_nil in Hin.
      * destruct (wiring_loader_last _ _ _ _ _ _ _ _ Hpre Hin) as (-> & -> & ->).
        split_and!; [done|done|]. by exists json, p0.
  - intros model ->. destruct (read_config _ _) as [e|p0].
    + by destruct H as (? & _).
    + destruct H as (json & post & _ & Htr & _ & Hpost & _).
      rewrite (calls_since_app _ _ _ Htr), (Hpost _ eq_refl).
      apply elem_of_app. right. unfold wiring. by repeat constructor.
Qed.


End Loader.

Lemma loader_called_last_witness :
  let F := Mock.framework true in
  let w := Mock.process true Mock.environ Mock.disk in
  let run := @create_model F Mock.cls 8 5 w in
  (∀ bert ckpt,
     load_stock_weights_call bert ckpt ∈ calls_since w run.2 →
     bert = length (w_heap w) ∧ ckpt = bert_model Mock.cls ∧
     ∃ json p0,
       GFile_read (w_fs w) (bert_config Mock.cls) = inr json ∧
       read_config (w_fs w) (bert_config Mock.cls) = inr p0 ∧
       calls_since w run.2 =
         config_calls Mock.cls json (set_adapter_size None p0) ++
         wiring Mock.cls 8 5 (set_adapter_size None p0) (length (w_heap w))) ∧
  (∀ model, run.1 = Ok model →
     load_stock_weights_call (length (w_heap w)) (bert_model Mock.cls)
       ∈ calls_since w run.2).
Proof.
  intros F w run.
  apply (@loader_called_last F Mock.cls 8 5 w run.1 run.2).
  apply pair_eq; reflexivity.
Defined.


(** ** What [create_model] leaves alone *)

Section Frame.
Context {F : Framework}.

(** In every run, with whatever outcome, [create_model] leaves the file
    system and the environment as they are, and every object that existed
    before the call is still there, unchanged: the run only adds objects.
    The standard output only grows, by what the loader prints: a run that
    has not reached the loader has printed nothing, and a run that has
    called it, whether the loader then fails or not, has appended the
    loader's output for the encoder as its initializers left it, the
    second draw of the run, and nothing else.  A run that returns a model
    has added exactly eight objects, the seven layers and the model, which
    is the last. *)
Theorem create_model_frame cls L N w r w' :
  create_model cls L N w = (r, w') →
  w_fs w' = w_fs w ∧ w_environ w' = w_environ w ∧
  ((∀ bert ckpt, load_stock_weights_call bert ckpt ∉ calls_since w w') →
   w_stdout w' = w_stdout w) ∧
  (∀ bert ckpt,
     load_stock_weights_call bert ckpt ∈ calls_since w w' →
     ∃ p0 enc0,
       read_config (w_fs w) (bert_config cls) = inr p0 ∧
       draws (build_order L N (set_adapter_size None p0)) (w_rng w) !! 1%nat = Some enc0 ∧
       w_stdout w' =
         w_stdout w ++ loader_output (w_fs w) (bert_model cls) (set_adapter_size None p0) enc0) ∧
  (∀ l o, w_heap w !! l = Some o → w_heap w' !! l = Some o) ∧
  (∀ model, r = Ok model →
     length (w_heap w') = (length (w_heap w) + 8)%nat ∧
     model = (length (w_heap w) + 7)%nat ∧
     ∃ inputs outputs layers,
       w_heap w' !! model = Some (ModelObj inputs outputs layers) ∧
       length layers = 7%nat ∧
       ∀ l, l ∈ layers → (length (w_heap w) ≤ l < model)%nat).
Proof.
  intros H.
  pose proof (create_model_inv _ _ _ _ _ _ H) as (Hfs & Henv & _ & [seg Hseg] & _).
  pose proof (create_model_script _ _ _ _ _ _ H) as (_ & _ & Hquiet & Hprinted).
  split_and!; try done.
  - intros l o Hl. rewrite Hseg. by apply lookup_app_l_Some.
  - intros model ->.
    apply create_model_Ok in H
      as (p0 & enc0 & enc & w_in & w_pool & w_drop & w_fc & w_drop1 & w_out & H).
    cbn zeta in H. destruct H as (_ & -> & Hh & _).
    pose proof (graph_holds (w_heap w) L N (set_adapter_size None p0)
                  enc w_in w_pool w_drop w_fc w_drop1 w_out) as G.
    rewrite <- Hh in G.
    apply holds_graph_lookups in G as (_ & _ & _ & _ & _ & _ & _ & Gm).
    split_and!.
    + rewrite Hh, length_app. by rewrite graph_length.
    + done.
    + eexists _, _, _. split_and!; [done|done|].
      intros l Hl.
      repeat (apply elem_of_cons in Hl as [->|Hl]; [lia|]).
      by apply elem_of_nil in Hl.
Qed.

End Frame.

Lemma create_model_frame_witness :
  let F := Mock.framework true in
  let w := (@get_tokenizer F Mock.cls (Mock.process true Mock.environ Mock.disk)).2 in
  let run := @create_model F Mock.cls 8 5 w in
  w_fs run.2 = w_fs w ∧ w_environ run.2 = w_environ w ∧
  ((∀ bert ckpt, load_stock_weights_call bert ckpt ∉ calls_since w run.2) →
   w_stdout run.2 = w_stdout w) ∧
  (∀ bert ckpt,
     load_stock_weights_call bert ckpt ∈ calls_since w run.2 →
     ∃ p0 enc0,
       read_config (w_fs w) (bert_config Mock.cls) = inr p0 ∧
       draws (build_order 8 5 (set_adapter_size None p0)) (w_rng w) !! 1%nat = Some enc0 ∧
       w_stdout run.2 =
         w_stdout w ++
         loader_output (w_fs w) (bert_model Mock.cls) (set_adapter_size None p0) enc0) ∧
  (∀ l o, w_heap w !! l = Some o → w_heap run.2 !! l = Some o) ∧
  (∀ model, run.1 = Ok model →
     length (w_heap run.2) = (length (w_heap w) + 8)%nat ∧
     model = (length (w_heap w) + 7)%nat ∧
     ∃ inputs outputs layers,
       w_heap run.2 !! model = Some (ModelObj inputs outputs layers) ∧
       length layers = 7%nat ∧
       ∀ l, l ∈ layers → (length (w_heap w) ≤ l < model)%nat).
Proof.
  intros F w run.
  apply (@create_model_frame F Mock.cls 8 5 w run.1 run.2).
  apply pair_eq; reflexivity.
Defined.

(** The output of three runs: one that returns a model, one whose loader
    finds no checkpoint, one whose configuration file is missing. *)
Example create_model_output :
  let F := Mock.framework true in
  let w := Mock.process true Mock.environ Mock.disk in
  let w_nockpt := Mock.process true Mock.environ (delete "/tmp/enc/bert_model.ckpt" Mock.disk) in
  let w_nocfg := Mock.process true Mock.environ (delete "/tmp/enc/bert_config.json" Mock.disk) in
  w_stdout (@create_model F Mock.cls 8 5 w).2 =
    [ "Done loading BERT weights from: /tmp/enc/bert_model.ckpt";
      "Unused weights from checkpoint:" ] ∧
  w_stdout (@create_model F Mock.cls 8 5 w_nockpt).2 = [] ∧
  w_stdout (@create_model F Mock.cls 8 5 w_nocfg).2 = [].
Proof. vm_compute. done. Qed.

(** ** The calls that [create_model] makes, and those it never makes *)

Section Calls.
Context {F : Framework}.

(** Every call of a run of [create_model]: a file is read or closed only
    if it is the configured configuration file; a checkpoint is loaded only
    if it is the configured one, and into the encoder that this run has
    instantiated; and the run creates no directory, no tokenizer and no
    summary. *)
Theorem create_model_calls_only cls L N w r w' c :
  create_model cls L N w = (r, w') →
  c ∈ calls_since w w' →
  (∀ name, c = GFile_read_call name ∨ c = GFile_close_call name →
           name = bert_config cls) ∧
  (∀ bert ckpt, c = load_stock_weights_call bert ckpt →
                bert = length (w_heap w) ∧ ckpt = bert_model cls) ∧
  (∀ name exist_ok, c ≠ os_makedirs_call name exist_ok) ∧
  (∀ vocab_file, c ≠ FullTokenizer_new_call vocab_file) ∧
  (∀ model, c ≠ Model_summary_call model).
Proof.
  intros H Hc.
  apply create_model_script in H as ((pre & post & p & Hcalls & Hpre & Hpost) & _).
  rewrite Hcalls in Hc.
  apply elem_of_cons in Hc as [->|Hc].
  { split_and!; try done. by intros name [[= ->]|[=]]. }
  apply elem_of_app in Hc as [Hc|Hc].
  { destruct (Hpre c Hc) as [[json ->]|[->| ->]]; split_and!; try done;
      by intros name [[=]|[=]]. }
  apply elem_of_cons in Hc as [->|Hc].
  { split_and!; try done. by intros name [[=]|[= ->]]. }
  pose proof (elem_of_prefix _ _ _ Hc Hpost) as Hw.
  split_and!.
  - intros name Hname. apply wiring_not_file_call in Hw.
    by destruct Hname as [-> | ->].
  - intros bert ckpt ->.
    by destruct (wiring_loader_last _ _ _ _ _ _ _ _ Hpost Hc) as (_ & -> & ->).
  - intros name exist_ok ->. unfold wiring in Hw.
    repeat (apply elem_of_cons in Hw as [Hw|Hw]; [discriminate Hw|]).
    by apply elem_of_nil in Hw.
  - intros v ->. unfold wiring in Hw.
    repeat (apply elem_of_cons in Hw as [Hw|Hw]; [discriminate Hw|]).
    by apply elem_of_nil in Hw.
  - intros m ->. unfold wiring in Hw.
    repeat (apply elem_of_cons in Hw as [Hw|Hw]; [discriminate Hw|]).
    by apply elem_of_nil in Hw.
Qed.

End Calls.

Lemma create_model_calls_only_witness :
  let F := Mock.framework true in
  let w := Mock.process true Mock.environ Mock.disk in
  let run := @create_model F Mock.cls 8 5 w in
  let c := load_stock_weights_call 0%nat "/tmp/enc/bert_model.ckpt" in
  (∀ name, c = GFile_read_call name ∨ c = GFile_close_call name →
           name = bert_config Mock.cls) ∧
  (∀ bert ckpt, c = load_stock_weights_call bert ckpt →
                bert = length (w_heap w) ∧ ckpt = bert_model Mock.cls) ∧
  (∀ name exist_ok, c ≠ os_makedirs_call name exist_ok) ∧
  (∀ vocab_file, c ≠ FullTokenizer_new_call vocab_file) ∧
  (∀ model, c ≠ Model_summary_call model).
Proof.
  intros F w run c.
  apply (@create_model_calls_only F Mock.cls 8 5 w run.1 run.2 c).
  - apply pair_eq; reflexivity.
  - apply (list_elem_of_lookup_2 _ 19%nat). vm_compute. reflexivity.
Defined.

(** ** The summary of a model that [create_model] returned *)

Section SummaryOfCreated.
Context {F : Framework}.

(** For a model that [create_model] has just returned, [ModelSummary.print]
    hands the summary routine the seven layers in the order of the chain,
    each with its configuration and its parameters, all built; the
    outcome is the routine's: its exception, or its lines appended to the
    standard output.  The helper finds no missing or unbuilt layer. *)
Theorem ModelSummary_print_created cls L N w model w' :
  create_model cls L N w = (Ok model, w') →
  ∃ p enc w_in w_pool w_drop w_fc w_drop1 w_out,
    let n := length (w_heap w) in
    let layers := [n + 1; n; n + 2; n + 3; n + 4; n + 5; n + 6]%nat in
    let described :=
      [ (InputLayer [L] "int32" "input_ids", Some w_in);
        (BertModelLayer p "bert", Some enc);
        (Lambda first_token, Some w_pool);
        (Dropout 0.5, Some w_drop);
        (Dense 768 "tanh", Some w_fc);
        (Dropout 0.5, Some w_drop1);
        (Dense N "softmax", Some w_out) ] in
    adapter_size p = None ∧
    ModelSummary_print model w' =
      match summary_text layers described with
      | inl e => (Raise e, logged (Model_summary_call model) w')
      | inr lines =>
          (Ok tt, set_stdout (w_stdout w' ++ lines) (logged (Model_summary_call model) w'))
      end.
Proof.
  intros H.
  apply create_model_Ok in H
    as (p0 & enc0 & enc & w_in & w_pool & w_drop & w_fc & w_drop1 & w_out & H).
  cbn zeta in H. destruct H as (_ & -> & Hh & _).
  pose proof (graph_holds (w_heap w) L N (set_adapter_size None p0)
                enc w_in w_pool w_drop w_fc w_drop1 w_out) as G.
  rewrite <- Hh in G.
  apply holds_graph_lookups in G as (G0 & G1 & G2 & G3 & G4 & G5 & G6 & Gm).
  exists (set_adapter_size None p0), enc, w_in, w_pool, w_drop, w_fc, w_drop1, w_out.
  cbn zeta. split; [done|].
  unfold ModelSummary_print, Model_summary, bind at 1, log, modify.
  unfold bind at 1, deref. cbn [w_heap set_trace]. rewrite Gm.
  unfold bind at 1, get. cbn [omap list_omap w_heap set_trace].
  rewrite G0, G1, G2, G3, G4, G5, G6.
  unfold bind, lift, raise, ret, modify, logged.
  by destruct (summary_text _ _).
Qed.

End SummaryOfCreated.

Lemma ModelSummary_print_created_witness :
  let F := Mock.framework true in
  let w := Mock.process true Mock.environ Mock.disk in
  let w' := (@create_model F Mock.cls 8 5 w).2 in
  ∃ p enc w_in w_pool w_drop w_fc w_drop1 w_out,
    let n := length (w_heap w) in
    let layers := [n + 1; n; n + 2; n + 3; n + 4; n + 5; n + 6]%nat in
    let described :=
      [ (InputLayer [8] "int32" "input_ids", Some w_in);
        (BertModelLayer p "bert", Some enc);
        (Lambda first_token, Some w_pool);
        (Dropout 0.5, Some w_drop);
        (Dense 768 "tanh", Some w_fc);
        (Dropout 0.5, Some w_drop1);
        (Dense 5 "softmax", Some w_out) ] in
    adapter_size p = None ∧
    @ModelSummary_print F 7%nat w' =
      match summary_text layers described with
      | inl e => (Raise e, logged (Model_summary_call 7%nat) w')
      | inr lines =>
          (Ok tt, set_stdout (w_stdout w' ++ lines) (logged (Model_summary_call 7%nat) w'))
      end.
Proof.
  intros F w w'.
  apply (@ModelSummary_print_created F Mock.cls 8 5 w 7%nat w').
  apply pair_eq; [vm_compute; reflexivity | reflexivity].
Defined.

(** ** A tokenizer and a later [create_model] *)

Section TokenizerAndModel.
Context {F : Framework}.

(** A tokenizer obtained before a call of [create_model] is not affected
    by the call, whatever its outcome: it maps every text to the same ids
    as before; and [get_tokenizer] succeeds again after the call, with a
    new tokenizer that agrees with the first on every text. *)
Theorem tokenizer_survives_create_model cls L N w t1 w1 r w2 :
  get_tokenizer cls w = (Ok t1, w1) →
  create_model cls L N w1 = (r, w2) →
  ∃ t2 w3,
    get_tokenizer cls w2 = (Ok t2, w3) ∧
    t1 ≠ t2 ∧
    ∀ text,
      is_Some (tokenizer_ids (w_heap w1) t1 text) ∧
      tokenizer_ids (w_heap w2) t1 text = tokenizer_ids (w_heap w1) t1 text ∧
      tokenizer_ids (w_heap w3) t1 text = tokenizer_ids (w_heap w1) t1 text ∧
      tokenizer_ids (w_heap w3) t2 text = tokenizer_ids (w_heap w1) t1 text.
Proof.
  intros H1 H2.
  pose proof (create_model_inv _ _ _ _ _ _ H2) as (Hfs & _ & _ & [seg Hseg] & _).
  rewrite get_tokenizer_run in H1. cbn zeta in H1.
  set (vocab_file := os_path_join (bert_dir cls) "vocab.txt") in *.
  destruct (GFile_read (w_fs w) vocab_file) as [e|vocab_text] eqn:Htext; [done|].
  destruct (vocab_of_text vocab_text) as [e|v] eqn:Hv; [done|].
  injection H1 as <- <-.
  unfold logged in *. cbn [w_heap w_fs set_heap set_trace] in *.
  assert (w_heap w2 !! length (w_heap w) = Some (TokenizerObj vocab_file v)) as Ht1.
  { rewrite Hseg. apply lookup_app_l_Some. by rewrite lookup_seg0. }
  eexists _, _. rewrite get_tokenizer_run. cbn zeta. fold vocab_file.
  rewrite Hfs, Htext, Hv. split; [reflexivity|].
  unfold logged. cbn [w_heap set_heap set_trace]. split.
  - apply lookup_lt_Some in Ht1. lia.
  - intros text. unfold tokenizer_ids.
    rewrite !lookup_seg0. cbn [lookup list_lookup].
    rewrite Ht1, (lookup_app_l_Some _ _ _ _ Ht1). by split_and!.
Qed.

End TokenizerAndModel.

Lemma tokenizer_survives_create_model_witness :
  let F := Mock.framework true in
  let w := Mock.process true Mock.environ Mock.disk in
  let w1 := (@get_tokenizer F Mock.cls w).2 in
  let run := @create_model F Mock.cls 8 5 w1 in
  ∃ t2 w3,
    get_tokenizer Mock.cls run.2 = (Ok t2, w3) ∧
    0%nat ≠ t2 ∧
    ∀ text,
      is_Some (tokenizer_ids (w_heap w1) 0%nat text) ∧
      tokenizer_ids (w_heap run.2) 0%nat text = tokenizer_ids (w_heap w1) 0%nat text ∧
      tokenizer_ids (w_heap w3) 0%nat text = tokenizer_ids (w_heap w1) 0%nat text ∧
      tokenizer_ids (w_heap w3) t2 text = tokenizer_ids (w_heap w1) 0%nat text.
Proof.
  intros F w w1 run.
  apply (@tokenizer_survives_create_model F Mock.cls 8 5 w 0%nat w1 run.1 run.2).
  - apply pair_eq; [vm_compute; reflexivity | reflexivity].
  - apply pair_eq; reflexivity.
Defined.

(** ** The hyperparameters of the encoder *)

Section Hyperparameters.
Context {F : Framework}.

(** The encoder of a returned model is instantiated with the
    hyperparameters that the configuration file gives, each unchanged,
    except the adapter size; when the file asks for no adapter the
    parameters are exactly those of the file.  The width of the first
    dense layer is 768 whatever hidden size the file gives. *)
Theorem encoder_hyperparameters cls L N w model w' :
  create_model cls L N w = (Ok model, w') →
  ∃ p0 bert p,
    read_config (w_fs w) (bert_config cls) = inr p0 ∧
    model_encoder (w_heap w') model = Some bert ∧
    layer_config_of (w_heap w') bert = Some (BertModelLayer p "bert") ∧
    num_layers p = num_layers p0 ∧
    num_heads p = num_heads p0 ∧
    hidden_size p = hidden_size p0 ∧
    intermediate_size p = intermediate_size p0 ∧
    vocab_size p = vocab_size p0 ∧
    max_position_embeddings p = max_position_embeddings p0 ∧
    (adapter_size p0 = None → p = p0) ∧
    layer_apply_call (Dense 768 "tanh") [None; Some (hidden_size p0)]
      ∈ calls_since w w'.
Proof.
  intros H.
  pose proof (create_model_inv _ _ _ _ _ _ H) as (_ & _ & _ & _ & Hinv).
  apply create_model_Ok in H
    as (p0 & enc0 & enc & w_in & w_pool & w_drop & w_fc & w_drop1 & w_out & H).
  cbn zeta in H. destruct H as (Hcfg & -> & Hh & _).
  rewrite Hcfg in Hinv. destruct Hinv as (json & post & _ & Htr & _ & Hpost & _).
  pose proof (graph_holds (w_heap w) L N (set_adapter_size None p0)
                enc w_in w_pool w_drop w_fc w_drop1 w_out) as G.
  rewrite <- Hh in G.
  apply holds_graph_model in G as (_ & _ & _ & _ & Ge & Gc & _).
  exists p0, (length (w_heap w)), (set_adapter_size None p0).
  split_and!; try done.
  - destruct p0 as [? ? ? ? ? ? a]. cbn. by intros ->.
  - rewrite (calls_since_app _ _ _ Htr), (Hpost _ eq_refl).
    apply elem_of_app. right. unfold wiring. cbn [hidden_size set_adapter_size].
    by repeat constructor.
Qed.

End Hyperparameters.

Lemma encoder_hyperparameters_witness :
  let F := Mock.framework true in
  let w := Mock.process true Mock.environ Mock.disk in
  let w' := (@create_model F Mock.cls 8 5 w).2 in
  ∃ p0 bert p,
    read_config (w_fs w) (bert_config Mock.cls) = inr p0 ∧
    model_encoder (w_heap w') 7%nat = Some bert ∧
    layer_config_of (w_heap w') bert = Some (BertModelLayer p "bert") ∧
    num_layers p = num_layers p0 ∧
    num_heads p = num_heads p0 ∧
    hidden_size p = hidden_size p0 ∧
    intermediate_size p = intermediate_size p0 ∧
    vocab_size p = vocab_size p0 ∧
    max_position_embeddings p = max_position_embeddings p0 ∧
    (adapter_size p0 = None → p = p0) ∧
    layer_apply_call (Dense 768 "tanh") [None; Some (hidden_size p0)]
      ∈ calls_since w w'.
Proof.
  intros F w w'.
  apply (@encoder_hyperparameters F Mock.cls 8 5 w 7%nat w').
  apply pair_eq; [vm_compute; reflexivity | reflexivity].
Defined.

(** ** First-token pooling of a batch *)

Lemma firsts_of_batch {A} (t : list (list (list A))) :
  Forall (λ seq, seq ≠ []) t →
  mapM (λ seq, seq !! 0%nat) t = Some ((λ seq, default [] (seq !! 0%nat)) <$> t).
Proof.
  induction 1 as [|[|v seq] t Hne _ IH]; [done|done|].
  cbn [mapM fmap list_fmap]. by rewrite IH.
Qed.

(** [seq[:, 0, :]] on the value of a tensor of shape [(b, L, H)] with
    [L > 0] is defined and is the value of a tensor of shape [(b, H)]: one
    vector per sequence, in the order of the batch, the vector of a
    sequence being the one at its position 0.  The positions after the
    first have no influence: a batch of sequences of any other positive
    length with the same first vectors gives the same result. *)
Theorem first_token_of_batch {A} (b L H : nat) (t : list (list (list A))) :
  has_shape3 b L H t → (0 < L)%nat →
  ∃ firsts,
    getitem first_token (nd3 t) = Some (nd2 firsts) ∧
    has_shape2 b H firsts ∧
    (∀ i seq, t !! i = Some seq → firsts !! i = seq !! 0%nat) ∧
    (∀ L' u, has_shape3 b L' H u → (0 < L')%nat →
       (∀ i a c, t !! i = Some a → u !! i = Some c → a !! 0%nat = c !! 0%nat) →
       getitem first_token (nd3 u) = Some (nd2 firsts)).
Proof.
  intros [Hb Ht] HL.
  assert (∀ (L0 : nat) (u : list (list (list A))), (0 < L0)%nat →
            Forall (λ seq, length seq = L0 ∧ Forall (λ v, length v = H) seq) u →
            Forall (λ seq, seq ≠ []) u) as Hne.
  { intros L0 u HL0 Hu. eapply Forall_impl; [exact Hu|].
    intros [|v seq] [Hlen _]; [cbn in Hlen; lia|done]. }
  exists ((λ seq, default [] (seq !! 0%nat)) <$> t).
  rewrite first_token_pooling, (firsts_of_batch t (Hne L t HL Ht)).
  split_and!.
  - done.
  - split; [by rewrite length_fmap|].
    apply Forall_fmap. eapply Forall_impl; [exact Ht|].
    intros [|v seq] [Hlen Hvs]; [cbn in Hlen; lia|].
    cbn. by apply Forall_cons_1 in Hvs as [? _].
  - intros i seq Hi. rewrite list_lookup_fmap, Hi. cbn.
    apply (proj1 (Forall_lookup _ _) (Hne L t HL Ht)) in Hi.
    by destruct seq.
  - intros L' u [Hub Hu] HL' Hagree.
    rewrite first_token_pooling, (firsts_of_batch u (Hne L' u HL' Hu)).
    assert ((λ seq : list (list A), default [] (seq !! 0%nat)) <$> u =
            (λ seq : list (list A), default [] (seq !! 0%nat)) <$> t) as ->; [|done].
    apply list_eq. intros i. rewrite !list_lookup_fmap.
    destruct (t !! i) as [a|] eqn:Ha, (u !! i) as [c|] eqn:Hc; cbn.
    + by rewrite (Hagree i a c Ha Hc).
    + apply lookup_lt_Some in Ha. apply lookup_ge_None in Hc. lia.
    + apply lookup_lt_Some in Hc. apply lookup_ge_None in Ha. lia.
    + done.
Qed.

Lemma first_token_of_batch_witness :
  ∃ firsts,
    getitem first_token
      (nd3 [[[1; 2]; [3; 4]; [0; 0]]; [[5; 6]; [7; 8]; [0; 0]]]) = Some (nd2 firsts) ∧
    has_shape2 2 2 firsts ∧
    (∀ i seq, [[[1; 2]; [3; 4]; [0; 0]]; [[5; 6]; [7; 8]; [0; 0]]] !! i = Some seq →
              firsts !! i = seq !! 0%nat) ∧
    (∀ L' u, has_shape3 2 L' 2 u → (0 < L')%nat →
       (∀ i a c, [[[1; 2]; [3; 4]; [0; 0]]; [[5; 6]; [7; 8]; [0; 0]]] !! i = Some a →
                 u !! i = Some c → a !! 0%nat = c !! 0%nat) →
       getitem first_token (nd3 u) = Some (nd2 firsts)).
Proof.
  apply (first_token_of_batch 2 3 2 [[[1; 2]; [3; 4]; [0; 0]]; [[5; 6]; [7; 8]; [0; 0]]]).
  - split; [reflexivity|]. repeat constructor.
  - lia.
Defined.

(** The batch of the witness above: the first vectors. *)
Example first_token_of_batch_sample :
  getitem first_token (nd3 [[[1; 2]; [3; 4]; [0; 0]]; [[5; 6]; [7; 8]; [0; 0]]])
  = Some (nd2 [[1; 2]; [5; 6]]).
Proof. reflexivity. Qed.
